(** * Version-gated write service and kernel adaptation layer

    A shallow embedding of the file service of [fuse_client.cpp]
    (the [DFSServerImpl] handlers [Read], [Write], [Unlink], [GetAttr]
    over the process-wide table [file_versions]) and of the FUSE hook
    [dfs_write], together with the properties of the version gate, of
    short reads and of the error mapping.

    Handlers are modelled one call at a time: every handler runs to
    completion before the next starts.  Integers of the wire contract
    ([int64], [time_t]) are [Z]; byte strings are [list byte]; path
    names are [string]. *)

From Stdlib Require Import ZArith Lia.
From Stdlib Require Import Strings.Byte.
From stdpp Require Import base gmap strings list sorting.

Open Scope Z_scope.

(** ** Byte strings *)

Abbreviation bytes := (list byte).

Definition bytes_of (s : string) : bytes := String.list_byte_of_string s.

(** [std::string(n, 0)] seen through an [int64] count: the count is
    converted to [size_t], so a negative one exceeds [max_size()] and the
    constructor throws [std::length_error]; [None] stands for that
    exception.  Allocation of a non-negative count is taken to succeed:
    the limit [string_max_size] below is not enforced here, and a
    theorem that needs the buffer to exist states it. *)
Definition string_fill (n : Z) (c : byte) : option bytes :=
  if n <? 0 then None else Some (replicate (Z.to_nat n) c).


(** [std::string::c_str] handed to a C interface: the name ends at the
    first NUL character. *)
Fixpoint c_str (s : string) : string :=
  match s with
  | EmptyString => EmptyString
  | String a r => if Ascii.eqb a Ascii.zero then EmptyString else String a (c_str r)
  end.

(** ** Local storage

    The store under the server holds regular files.  A name can also be
    [Unreachable]: no file can be opened, created, stat-ed or removed
    there (the empty name, a missing or unsearchable parent directory).
    A regular file may be read-only for the server process.  Limits on
    file size and on free space are not modelled. *)
Module Storage.

Record inode := Inode {
  i_data : bytes;
  i_mtime : Z;
  i_writable : bool
}.

Inductive entry :=
| Regular (f : inode)
| Unreachable.

Abbreviation disk := (gmap string entry).

Definition resolve (d : disk) (path : string) : option entry :=
  let name := c_str path in
  if decide (name = EmptyString) then Some Unreachable else d !! name.

Inductive openmode := ios_in | ios_out | ios_in_out.

(** [open(2)] as reached from [basic_filebuf::open]: [ios_in] is
    O_RDONLY, [ios_in_out] is O_RDWR, [ios_out] is
    O_WRONLY|O_CREAT|O_TRUNC.  The result is the store afterwards, or
    [None] when the open fails. [t] is the kernel's timestamp. *)
Definition sys_open (d : disk) (path : string) (mode : openmode) (t : Z)
  : option disk :=
  match resolve d path, mode with
  | Some (Regular f), ios_in => Some d
  | Some (Regular f), ios_in_out => if i_writable f then Some d else None
  | Some (Regular f), ios_out =>
      if i_writable f
      then Some (<[c_str path := Regular (Inode [] t true)]> d)
      else None
  | None, ios_out => Some (<[c_str path := Regular (Inode [] t true)]> d)
  | None, _ => None
  | Some Unreachable, _ => None
  end.

(** Bytes available from position [pos]. *)
Definition sys_pread (d : disk) (path : string) (pos : Z) (n : Z) : bytes :=
  match resolve d path with
  | Some (Regular f) =>
      if pos <? 0 then []
      else take (Z.to_nat n) (drop (Z.to_nat pos) (i_data f))
  | _ => []
  end.

(** Contents after writing [data] at position [pos]: a gap past the old
    end is zero-filled. *)
Definition splice (old : bytes) (pos : nat) (data : bytes) : bytes :=
  take pos old ++ replicate (pos - length old)%nat x00 ++ data
    ++ drop (pos + length data)%nat old.

(** A write of no bytes issues no system call. *)
Definition sys_pwrite (d : disk) (path : string) (pos : Z) (data : bytes) (t : Z)
  : disk :=
  match data, resolve d path with
  | _ :: _, Some (Regular f) =>
      <[c_str path := Regular (Inode (splice (i_data f) (Z.to_nat pos) data) t
                                 (i_writable f))]> d
  | _, _ => d
  end.

(** [stat(2)]: size and modification time of a regular file. *)
Definition sys_stat (d : disk) (path : string) : option (Z * Z) :=
  match resolve d path with
  | Some (Regular f) => Some (Z.of_nat (length (i_data f)), i_mtime f)
  | _ => None
  end.

(** [std::remove]: [0] and the entry gone, or [-1] and no change. *)
Definition sys_remove (d : disk) (path : string) : Z * disk :=
  match resolve d path with
  | Some (Regular f) => (0, delete (c_str path) d)
  | _ => (-1, d)
  end.

End Storage.
Import Storage.

(** ** File streams

    The part of [std::ifstream] / [std::fstream] the handlers use.  The
    stream writes through: the handlers destroy the stream before they
    return, so buffering is not observable between calls. *)
Module Stream.

Record stream := Stream {
  st_file : option string;   (* the open file, if any *)
  st_fail : bool;            (* failbit or badbit *)
  st_pos : Z;
  st_gcount : Z
}.

Definition closed : stream := Stream None false 0 0.

Definition is_open (s : stream) : bool :=
  match st_file s with Some _ => true | None => false end.

(** [open]: fails on a stream that is already open; sets failbit on
    failure and clears the state on success. *)
Definition open (s : stream) (d : disk) (path : string) (mode : openmode) (t : Z)
  : stream * disk :=
  match st_file s, sys_open d path mode t with
  | None, Some d' => (Stream (Some path) false 0 (st_gcount s), d')
  | _, _ => (Stream (st_file s) true (st_pos s) (st_gcount s), d)
  end.

(** [close]: sets failbit when no file is open. *)
Definition close (s : stream) : stream :=
  match st_file s with
  | Some _ => Stream None (st_fail s) 0 (st_gcount s)
  | None => Stream None true (st_pos s) (st_gcount s)
  end.

(** [seekg(off)] / [seekp(off)]: skipped when the stream has failed;
    a negative position, or a stream with no file, sets failbit. *)
Definition seek (s : stream) (off : Z) : stream :=
  if st_fail s then s
  else if is_open s && (0 <=? off)
       then Stream (st_file s) false off (st_gcount s)
       else Stream (st_file s) true (st_pos s) (st_gcount s).

(** [read(&buffer[0], n)]: on a failed stream nothing is extracted and
    [gcount] is 0; otherwise the bytes available at the position
    overwrite the start of the buffer, and a short count sets failbit. *)
Definition read (s : stream) (d : disk) (buffer : bytes) (n : Z)
  : stream * bytes :=
  match st_fail s, st_file s with
  | false, Some path =>
      let got := sys_pread d path (st_pos s) n in
      let k := Z.of_nat (length got) in
      (Stream (st_file s) (negb (k =? n)) (st_pos s + k) k,
       got ++ drop (length got) buffer)
  | _, _ => (Stream (st_file s) true (st_pos s) 0, buffer)
  end.

(** [write(data, n)]: nothing is written on a failed stream. *)
Definition write (s : stream) (d : disk) (data : bytes) (t : Z)
  : stream * disk :=
  match st_fail s, st_file s with
  | false, Some path =>
      (Stream (st_file s) false (st_pos s + Z.of_nat (length data)) (st_gcount s),
       sys_pwrite d path (st_pos s) data t)
  | _, _ => (Stream (st_file s) true (st_pos s) (st_gcount s), d)
  end.

End Stream.

(** ** Wire contract *)

(** [grpc::StatusCode]. *)
Inductive StatusCode :=
| OK | CANCELLED | UNKNOWN | INVALID_ARGUMENT | DEADLINE_EXCEEDED
| NOT_FOUND | ALREADY_EXISTS | PERMISSION_DENIED | RESOURCE_EXHAUSTED
| FAILED_PRECONDITION | ABORTED | OUT_OF_RANGE | UNIMPLEMENTED
| INTERNAL | UNAVAILABLE | DATA_LOSS | UNAUTHENTICATED.

#[global] Instance StatusCode_eq_dec : EqDecision StatusCode.
Proof. solve_decision. Defined.

(** [Status::ok()]. *)
Definition ok (c : StatusCode) : bool := bool_decide (c = OK).

Record ReadRequest := mkReadRequest {
  rd_path : string; rd_offset : Z; rd_size : Z }.
Record ReadResponse := mkReadResponse {
  rd_data : bytes; rd_bytes_read : Z }.

Record WriteRequest := mkWriteRequest {
  wr_path : string; wr_offset : Z; wr_data : bytes; wr_mtime : Z }.
Record WriteResponse := mkWriteResponse {
  wr_bytes_written : Z }.

Record UnlinkRequest := mkUnlinkRequest { ul_path : string }.
Record UnlinkResponse := mkUnlinkResponse { ul_success : bool }.

Record GetAttrRequest := mkGetAttrRequest { ga_path : string }.
Record GetAttrResponse := mkGetAttrResponse {
  ga_exists : bool; ga_size : Z; ga_mtime : Z }.

(** A response message as the framework hands it to the handler: every
    field at its default. *)
Definition ReadResponse0 : ReadResponse := mkReadResponse [] 0.
Definition WriteResponse0 : WriteResponse := mkWriteResponse 0.
Definition UnlinkResponse0 : UnlinkResponse := mkUnlinkResponse false.
Definition GetAttrResponse0 : GetAttrResponse := mkGetAttrResponse false 0 0.

(** What a handler does: it returns a status with the response it
    filled in, or an exception leaves it. *)
Inductive outcome (R : Type) :=
| Returned (code : StatusCode) (response : R)
| Thrown.
Arguments Returned {R} code response.
Arguments Thrown {R}.

(** ** The service *)

(** The process-wide table [file_versions] and the store the server
    works on. *)
Record server := Server {
  file_versions : gmap string Z;
  storage : disk
}.

(** A server that has just started: no version recorded yet. *)
Definition boot (d : disk) : server := Server ∅ d.

Module DFSServerImpl.

Definition Read (s : server) (request : ReadRequest) : outcome ReadResponse :=
  let path := rd_path request in
  let offset := rd_offset request in
  let size := rd_size request in
  let '(file, _) := Stream.open Stream.closed (storage s) path ios_in 0 in
  if Stream.st_fail file then Returned NOT_FOUND ReadResponse0
  else
    let file := Stream.seek file offset in
    match string_fill size x00 with
    | None => Thrown
    | Some buffer =>
        let '(file, buffer) := Stream.read file (storage s) buffer size in
        Returned OK (mkReadResponse buffer (Stream.st_gcount file))
    end.

(** The timestamp the admission gate compares against
    ([server_mtime] after the lookup under [version_mutex]). *)
Definition server_mtime (s : server) (path : string) : Z :=
  match file_versions s !! path with
  | Some t => t
  | None => 0
  end.

(** The stream and the store after the open sequence of [Write]. *)
Definition Write_open (d : disk) (path : string) (t_fs : Z)
  : Stream.stream * disk :=
  let '(file, d) := Stream.open Stream.closed d path ios_in_out t_fs in
  if negb (Stream.is_open file) then
    let '(file, d) := Stream.open file d path ios_out t_fs in
    let file := Stream.close file in
    Stream.open file d path ios_in_out t_fs
  else (file, d).

(** [t_fs] is the time the kernel stamps on files touched by this call,
    [now] is the value of [std::time(nullptr)] read when the version is
    recorded. *)
Definition Write (s : server) (request : WriteRequest) (t_fs now : Z)
  : outcome WriteResponse * server :=
  let path := wr_path request in
  let offset := wr_offset request in
  let data := wr_data request in
  let client_mtime := wr_mtime request in
  if client_mtime <? server_mtime s path then
    (Returned FAILED_PRECONDITION WriteResponse0, s)
  else
    let '(file, d) := Write_open (storage s) path t_fs in
    let file := Stream.seek file offset in
    let '(file, d) := Stream.write file d data t_fs in
    let response := mkWriteResponse (Z.of_nat (length data)) in
    (Returned OK response, Server (<[path := now]> (file_versions s)) d).

Definition Unlink (s : server) (request : UnlinkRequest)
  : outcome UnlinkResponse * server :=
  let path := ul_path request in
  let '(result, d) := sys_remove (storage s) path in
  if result =? 0 then
    (Returned OK (mkUnlinkResponse true), Server (file_versions s) d)
  else
    (Returned NOT_FOUND (mkUnlinkResponse false), Server (file_versions s) d).

Definition GetAttr (s : server) (request : GetAttrRequest)
  : outcome GetAttrResponse :=
  let path := ga_path request in
  match sys_stat (storage s) path with
  | Some (st_size, st_mtime) =>
      Returned OK (mkGetAttrResponse true st_size st_mtime)
  | None => Returned NOT_FOUND (mkGetAttrResponse false 0 0)
  end.

End DFSServerImpl.
Import DFSServerImpl.

(** The write passes the gate: the handler does not stop at the
    comparison of the two timestamps. *)
Definition gate_passes (s : server) (request : WriteRequest) : Prop :=
  server_mtime s (wr_path request) <= wr_mtime request.

(** A write call together with what it observes of the clocks: [wc_t_fs]
    is the time the kernel stamps on the files the call touches,
    [wc_now] the value of [std::time(nullptr)] it records. *)
Record write_call := WriteCall {
  wc_request : WriteRequest;
  wc_t_fs : Z;
  wc_now : Z
}.

Definition do_write (s : server) (w : write_call) : outcome WriteResponse * server :=
  Write s (wc_request w) (wc_t_fs w) (wc_now w).

(** The handler returned [Status::OK]. *)
Definition accepted {R} (o : outcome R) : Prop :=
  match o with
  | Returned OK _ => True
  | _ => False
  end.

(** Running a sequence of writes, and whether each was accepted. *)
Fixpoint run_writes (s : server) (ws : list write_call) : server :=
  match ws with
  | [] => s
  | w :: ws => run_writes (snd (do_write s w)) ws
  end.

Fixpoint all_accepted (s : server) (ws : list write_call) : Prop :=
  match ws with
  | [] => True
  | w :: ws => accepted (fst (do_write s w)) ∧ all_accepted (snd (do_write s w)) ws
  end.

(** The calls of the service, and the server after one of them. *)
Inductive call :=
| CallRead (r : ReadRequest)
| CallWrite (w : write_call)
| CallUnlink (r : UnlinkRequest)
| CallGetAttr (r : GetAttrRequest).

Definition serve (s : server) (c : call) : server :=
  match c with
  | CallRead _ => s
  | CallWrite w => snd (do_write s w)
  | CallUnlink r => snd (Unlink s r)
  | CallGetAttr _ => s
  end.

Definition run (s : server) (cs : list call) : server := foldl serve s cs.

(** The readings of the server's wall clock along a trace. *)
Definition clock_of (c : call) : option Z :=
  match c with
  | CallWrite w => Some (wc_now w)
  | _ => None
  end.

Definition clock_readings (cs : list call) : list Z := omap clock_of cs.

(** Order on version records: no record is below every record. *)
Definition version_le (a b : option Z) : Prop :=
  match a, b with
  | None, _ => True
  | Some x, Some y => x <= y
  | Some _, None => False
  end.

(** ** Derived notions *)

(** The store a write leaves behind once it is past the gate. *)
Definition Write_storage (s : server) (request : WriteRequest) (t_fs : Z) : disk :=
  let '(file, d) := Write_open (storage s) (wr_path request) t_fs in
  snd (Stream.write (Stream.seek file (wr_offset request)) d (wr_data request) t_fs).

(** The threshold after the writes [ws] to [p]: the server clock reading
    taken by the last of them, or the threshold of [s] when there is
    none. *)
Definition last_recorded (s : server) (p : string) (ws : list write_call) : Z :=
  default (server_mtime s p) (last (wc_now <$> ws)).

(** The bytes of [content] that a read of [size] bytes at [offset]
    finds. *)
Definition file_slice (content : bytes) (offset size : Z) : bytes :=
  if offset <? 0 then []
  else take (Z.to_nat size) (drop (Z.to_nat offset) content).

(** ** Kernel adaptation layer *)
Module Fuse.

(** [EIO] of <errno.h>. *)
Definition EIO : Z := 5.

(** Conversion of an [int64] to the [int] a FUSE hook returns. *)
Definition int_of (z : Z) : Z := (z + 2 ^ 31) mod 2 ^ 32 - 2 ^ 31.

(** [path + 1]: FUSE hands over paths that start with "/". *)
Definition path_plus_1 (path : string) : string :=
  match path with
  | String _ r => r
  | EmptyString => EmptyString
  end.

Section Hooks.

(** [stub_->Write]: the status of the remote call, transport failures
    included, and the response. *)
Variable stub_Write : WriteRequest -> StatusCode * WriteResponse.

(** [std::time(nullptr)] on the client. *)
Variable time_nullptr : Z.

Definition dfs_write (path : string) (buf : bytes) (size : Z) (offset : Z) : Z :=
  let request :=
    mkWriteRequest (path_plus_1 path) offset (take (Z.to_nat size) buf)
      time_nullptr in
  let '(status, response) := stub_Write request in
  if negb (ok status) then - EIO
  else int_of (wr_bytes_written response).

End Hooks.

(** The stub when the remote end is the server [s]: an exception that
    leaves a handler reaches the client as [UNKNOWN]. *)
Definition remote_Write (s : server) (t_fs now : Z) (request : WriteRequest)
  : StatusCode * WriteResponse :=
  match fst (Write s request t_fs now) with
  | Returned code response => (code, response)
  | Thrown => (UNKNOWN, WriteResponse0)
  end.

End Fuse.

(** ** The other hooks of the adaptation layer *)
Module Adapter.

(** [ENOENT] of <errno.h>, [S_IFREG] of <sys/stat.h>. *)
Definition ENOENT : Z := 2.
Definition S_IFREG : Z := 32768.

(** Conversion of a [size_t] to the [int64] field of a request. *)
Definition int64_of (z : Z) : Z := (z + 2 ^ 63) mod 2 ^ 64 - 2 ^ 63.

(** The fields of [struct stat] that [dfs_getattr] sets; [memset]
    leaves every other field 0. *)
Record stat := Stat {
  st_mode : Z;
  st_nlink : Z;
  st_size : Z;
  st_mtime : Z
}.

Definition stat0 : stat := Stat 0 0 0 0.

(** [memcpy(dest, src, n)] with [n] a [size_t] obtained from an [int64]:
    the first [n] bytes of [dest] are replaced by those of [src].  A
    count that is negative before conversion, or beyond either array,
    is undefined behaviour: [None]. *)
Definition memcpy (dest src : bytes) (n : Z) : option bytes :=
  if (0 <=? n) && (n <=? Z.of_nat (length dest)) && (n <=? Z.of_nat (length src))
  then Some (take (Z.to_nat n) src ++ drop (Z.to_nat n) dest)
  else None.

Section Hooks.

(** The calls through [stub_], each with the status of the remote call
    and the response. *)
Variable stub_GetAttr : GetAttrRequest -> StatusCode * GetAttrResponse.
Variable stub_Read : ReadRequest -> StatusCode * ReadResponse.
Variable stub_Write : WriteRequest -> StatusCode * WriteResponse.
Variable stub_Unlink : UnlinkRequest -> StatusCode * UnlinkResponse.

(** [std::time(nullptr)] on the client. *)
Variable time_nullptr : Z.

(** The result and the [struct stat] the hook leaves behind. *)
Definition dfs_getattr (path : string) : Z * stat :=
  let st := stat0 in
  let request := mkGetAttrRequest (Fuse.path_plus_1 path) in
  let '(status, response) := stub_GetAttr request in
  if negb (ok status) || negb (ga_exists response) then (- ENOENT, st)
  else
    (0, Stat (Z.lor S_IFREG 438) 1 (ga_size response) (ga_mtime response)).

(** The result and the caller's buffer afterwards; [None] when the
    [memcpy] is out of bounds.  The source of the copy is
    [response.data().c_str()], the data and its terminating NUL. *)
Definition dfs_read (path : string) (buf : bytes) (size : Z) (offset : Z)
  : option (Z * bytes) :=
  let request :=
    mkReadRequest (Fuse.path_plus_1 path) offset (int64_of size) in
  let '(status, response) := stub_Read request in
  if negb (ok status) then Some (- Fuse.EIO, buf)
  else
    match memcpy buf (rd_data response ++ [x00]) (rd_bytes_read response) with
    | Some buf' => Some (Fuse.int_of (rd_bytes_read response), buf')
    | None => None
    end.

Definition dfs_create (path : string) : Z :=
  let empty_data : bytes := [] in
  let request :=
    mkWriteRequest (Fuse.path_plus_1 path) 0 empty_data time_nullptr in
  let '(status, response) := stub_Write request in
  if ok status then 0 else - Fuse.EIO.

Definition dfs_unlink (path : string) : Z :=
  let request := mkUnlinkRequest (Fuse.path_plus_1 path) in
  let '(status, response) := stub_Unlink request in
  if ok status && ul_success response then 0 else - ENOENT.

End Hooks.

(** The stubs when the remote end is the server [s]. *)
Definition reply {R} (o : outcome R) (r0 : R) : StatusCode * R :=
  match o with
  | Returned code response => (code, response)
  | Thrown => (UNKNOWN, r0)
  end.

Definition remote_GetAttr (s : server) (request : GetAttrRequest)
  : StatusCode * GetAttrResponse :=
  reply (GetAttr s request) GetAttrResponse0.

Definition remote_Read (s : server) (request : ReadRequest)
  : StatusCode * ReadResponse :=
  reply (Read s request) ReadResponse0.

Definition remote_Unlink (s : server) (request : UnlinkRequest)
  : StatusCode * UnlinkResponse :=
  reply (fst (Unlink s request)) UnlinkResponse0.

End Adapter.

(** ** Contents after a write *)

(** What a file holding [old] holds once [Write] has sought to [offset]
    and written [data]: nothing changes when the seek fails or when
    there is nothing to write. *)
Definition content_after (old : bytes) (offset : Z) (data : bytes) : bytes :=
  match data with
  | [] => old
  | _ :: _ => if offset <? 0 then old else splice old (Z.to_nat offset) data
  end.

(** Whether the store is touched by such a write. *)
Definition touches (offset : Z) (data : bytes) : bool :=
  match data with
  | [] => false
  | _ :: _ => 0 <=? offset
  end.

(** The NUL character of a path name. *)
Definition NUL : Ascii.ascii := Ascii.zero.

(** ** Scenario data *)

(** The 5-byte file "hello" under the name "a.txt". *)
Definition hello_disk : disk :=
  {[ "a.txt"%string := Regular (Inode (bytes_of "hello") 100 true) ]}.

(** The same file, read-only for the server. *)
Definition readonly_disk : disk :=
  {[ "a.txt"%string := Regular (Inode (bytes_of "hello") 100 false) ]}.

(** A two-byte file, and the same file with a NUL byte appended. *)
Definition lo_disk : disk :=
  {[ "a.txt"%string := Regular (Inode (bytes_of "lo") 100 true) ]}.

Definition lo_nul_disk : disk :=
  {[ "a.txt"%string := Regular (Inode (bytes_of "lo" ++ [x00]) 100 true) ]}.

(** Two writes to "a.txt", declared at 100 and 1500 and recorded by the
    server at 1000 and 2000. *)
Definition two_writes : list write_call :=
  [ WriteCall (mkWriteRequest "a.txt" 0 (bytes_of "hello") 100) 1000 1000;
    WriteCall (mkWriteRequest "a.txt" 0 (bytes_of "HELLO") 1500) 2000 2000 ].

(** * Properties *)

(** ** Storage and stream facts *)

Lemma resolve_insert_same (d : disk) (path : string) (e : entry) :
  c_str path ≠ EmptyString ->
  resolve (<[c_str path := e]> d) path = Some e.
Proof.
  intros Hne. unfold resolve. simpl.
  destruct (decide (c_str path = EmptyString)); [done|].
  apply lookup_insert_eq.
Qed.

Lemma resolve_None (d : disk) (path : string) :
  resolve d path = None -> c_str path ≠ EmptyString ∧ d !! c_str path = None.
Proof.
  unfold resolve. simpl.
  destruct (decide (c_str path = EmptyString)); [done|]. auto.
Qed.

(** ** The gate of [Write] *)

Lemma Write_stale (s : server) (request : WriteRequest) (t_fs now : Z) :
  wr_mtime request < server_mtime s (wr_path request) ->
  Write s request t_fs now = (Returned FAILED_PRECONDITION WriteResponse0, s).
Proof.
  intros Hlt. unfold Write.
  destruct (Z.ltb_spec (wr_mtime request) (server_mtime s (wr_path request)));
    [reflexivity | lia].
Qed.

Lemma Write_fresh (s : server) (request : WriteRequest) (t_fs now : Z) :
  server_mtime s (wr_path request) <= wr_mtime request ->
  Write s request t_fs now =
    (Returned OK (mkWriteResponse (Z.of_nat (length (wr_data request)))),
     Server (<[wr_path request := now]> (file_versions s))
            (Write_storage s request t_fs)).
Proof.
  intros Hle. unfold Write, Write_storage.
  destruct (Z.ltb_spec (wr_mtime request) (server_mtime s (wr_path request)));
    [lia|].
  destruct (Write_open (storage s) (wr_path request) t_fs) as [file d].
  destruct (Stream.write (Stream.seek file (wr_offset request)) d
              (wr_data request) t_fs) as [file' d'].
  reflexivity.
Qed.

Lemma Write_accepted_iff (s : server) (request : WriteRequest) (t_fs now : Z) :
  accepted (fst (Write s request t_fs now)) <->
  server_mtime s (wr_path request) <= wr_mtime request.
Proof.
  destruct (Z.lt_ge_cases (wr_mtime request) (server_mtime s (wr_path request)))
    as [Hlt|Hge].
  - rewrite Write_stale by done. simpl. split; [tauto | lia].
  - rewrite Write_fresh by done. simpl. tauto.
Qed.

(** C1 (as amended).  A write is accepted exactly when its declared time
    is at least the timestamp recorded for its path, where a path with
    no record counts as recorded at time 0.  A write declared strictly
    earlier fails with FAILED_PRECONDITION and leaves the server as it
    was: the version table and the store are unchanged, so every later
    [Read] and [GetAttr] answers as before. *)
Theorem Write_gate (s : server) (request : WriteRequest) (t_fs now : Z) :
  (accepted (fst (Write s request t_fs now)) <->
     server_mtime s (wr_path request) <= wr_mtime request) ∧
  (wr_mtime request < server_mtime s (wr_path request) ->
     fst (Write s request t_fs now) = Returned FAILED_PRECONDITION WriteResponse0 ∧
     snd (Write s request t_fs now) = s ∧
     (∀ r, Read (snd (Write s request t_fs now)) r = Read s r) ∧
     (∀ g, GetAttr (snd (Write s request t_fs now)) g = GetAttr s g)).
Proof.
  split; [apply Write_accepted_iff|].
  intros Hlt. rewrite Write_stale by done. simpl. auto.
Qed.

Lemma Write_gate_witness :
  let s := snd (Write (boot ∅) (mkWriteRequest "a.txt" 0 (bytes_of "hello") 100) 1000 1000) in
  let request := mkWriteRequest "a.txt" 0 (bytes_of "HELLO") 50 in
  wr_mtime request < server_mtime s (wr_path request) ∧
  fst (Write s request 1001 1001) = Returned FAILED_PRECONDITION WriteResponse0 ∧
  Read (snd (Write s request 1001 1001)) (mkReadRequest "a.txt" 0 5) =
    Returned OK (mkReadResponse (bytes_of "hello") 5).
Proof.
  intros s request.
  assert (Hlt : wr_mtime request < server_mtime s (wr_path request))
    by (vm_compute; reflexivity).
  split; [exact Hlt|].
  destruct (Write_gate s request 1001 1001) as [_ Hstale].
  destruct (Hstale Hlt) as (Hfst & Hsnd & _ & _).
  split; [exact Hfst|].
  rewrite Hsnd. vm_compute. reflexivity.
Defined.

(** A path with no record, and a declared time before the epoch: the
    write is turned away although nothing was ever written there. *)
Lemma Write_gate_no_record_counterexample :
  let s := boot ∅ in
  let request := mkWriteRequest "a.txt" 0 (bytes_of "hello") (-1) in
  file_versions s !! wr_path request = None ∧
  Write s request 10 10 = (Returned FAILED_PRECONDITION WriteResponse0, s).
Proof. split; reflexivity. Qed.

(** ** What an accepted write records *)

(** C3.  An accepted write sets the version record of its path to the
    server's own clock reading [now], whatever time the client declared
    (so the record differs from the declared time whenever the two
    clocks differ), while whether the write is accepted is decided by
    the declared time alone: the server's clock plays no part in it. *)
Theorem Write_records_server_time
    (s : server) (request : WriteRequest) (t_fs now : Z) :
  accepted (fst (Write s request t_fs now)) ->
  file_versions (snd (Write s request t_fs now)) !! wr_path request = Some now ∧
  (now ≠ wr_mtime request ->
     file_versions (snd (Write s request t_fs now)) !! wr_path request
       ≠ Some (wr_mtime request)) ∧
  server_mtime s (wr_path request) <= wr_mtime request ∧
  (∀ t_fs' now', accepted (fst (Write s request t_fs' now'))).
Proof.
  intros Hacc. apply Write_accepted_iff in Hacc.
  rewrite Write_fresh by done. simpl.
  rewrite lookup_insert_eq.
  repeat split; [congruence | done |].
  intros t_fs' now'. by apply Write_accepted_iff.
Qed.

Lemma Write_records_server_time_witness :
  let s := boot ∅ in
  let request := mkWriteRequest "a.txt" 0 (bytes_of "hello") 100 in
  accepted (fst (Write s request 1000 1000)) ∧
  file_versions (snd (Write s request 1000 1000)) !! "a.txt"%string = Some 1000.
Proof.
  intros s request.
  assert (Hacc : accepted (fst (Write s request 1000 1000)))
    by (vm_compute; exact I).
  split; [exact Hacc|].
  exact (proj1 (Write_records_server_time s request 1000 1000 Hacc)).
Defined.

(** ** The open sequence of [Write] *)

Lemma sys_open_regular (d : disk) (path : string) (f : inode) (mode : openmode) (t : Z) :
  resolve d path = Some (Regular f) ->
  sys_open d path mode t =
    match mode with
    | ios_in => Some d
    | ios_in_out => if i_writable f then Some d else None
    | ios_out =>
        if i_writable f
        then Some (<[c_str path := Regular (Inode [] t true)]> d)
        else None
    end.
Proof. intros H. unfold sys_open. rewrite H. by destruct mode. Qed.

Lemma sys_open_unreachable (d : disk) (path : string) (mode : openmode) (t : Z) :
  resolve d path = Some Unreachable -> sys_open d path mode t = None.
Proof. intros H. unfold sys_open. rewrite H. by destruct mode. Qed.

Lemma sys_open_free (d : disk) (path : string) (mode : openmode) (t : Z) :
  resolve d path = None ->
  sys_open d path mode t =
    match mode with
    | ios_out => Some (<[c_str path := Regular (Inode [] t true)]> d)
    | _ => None
    end.
Proof. intros H. unfold sys_open. rewrite H. by destruct mode. Qed.

Lemma Write_open_spec (d : disk) (path : string) (t_fs : Z) :
  Write_open d path t_fs =
    match resolve d path with
    | Some (Regular f) =>
        if i_writable f then (Stream.Stream (Some path) false 0 0, d)
        else (Stream.Stream None true 0 0, d)
    | Some Unreachable => (Stream.Stream None true 0 0, d)
    | None =>
        (Stream.Stream (Some path) false 0 0,
         <[c_str path := Regular (Inode [] t_fs true)]> d)
    end.
Proof.
  unfold Write_open, Stream.open, Stream.close, Stream.is_open. simpl.
  destruct (resolve d path) as [[f|]|] eqn:Hres.
  - rewrite !(sys_open_regular _ _ _ _ _ Hres).
    destruct (i_writable f) eqn:Hw; simpl; [reflexivity|].
    repeat (rewrite ?(sys_open_regular _ _ _ _ _ Hres), ?Hw; simpl).
    reflexivity.
  - repeat (rewrite ?(sys_open_unreachable _ _ _ _ Hres); simpl).
    reflexivity.
  - repeat (rewrite ?(sys_open_free _ _ _ _ Hres); simpl).
    apply resolve_None in Hres as [Hne Hlk].
    erewrite sys_open_regular by (by apply resolve_insert_same).
    reflexivity.
Qed.

Lemma Write_open_closed (d : disk) (path : string) (t_fs : Z) :
  Stream.is_open (fst (Write_open d path t_fs)) = false ->
  snd (Write_open d path t_fs) = d ∧
  Stream.st_fail (fst (Write_open d path t_fs)) = true.
Proof.
  rewrite Write_open_spec.
  destruct (resolve d path) as [[f|]|]; [destruct (i_writable f)|..];
    simpl; auto; discriminate.
Qed.

(** ** Failures of file I/O past the gate *)

(** C9.  Once the gate is passed the handler returns OK with
    [bytes_written] equal to the length of the data, whatever happens to
    the file: when no file could be opened not a byte reaches the store,
    when the seek fails nothing is written to the file that was opened,
    and the reply is the same. *)
Theorem Write_reports_success_regardless
    (s : server) (request : WriteRequest) (t_fs now : Z) :
  gate_passes s request ->
  fst (Write s request t_fs now) =
    Returned OK (mkWriteResponse (Z.of_nat (length (wr_data request)))) ∧
  (Stream.is_open (fst (Write_open (storage s) (wr_path request) t_fs)) = false ->
     storage (snd (Write s request t_fs now)) = storage s) ∧
  (wr_offset request < 0 ->
     storage (snd (Write s request t_fs now)) =
       snd (Write_open (storage s) (wr_path request) t_fs)).
Proof.
  unfold gate_passes. intros Hgate.
  rewrite Write_fresh by done. simpl. split; [reflexivity|]. split.
  - intros Hclosed. unfold Write_storage.
    destruct (Write_open_closed _ _ _ Hclosed) as [Hd Hfail].
    destruct (Write_open (storage s) (wr_path request) t_fs) as [file d].
    simpl in *. subst d.
    unfold Stream.write, Stream.seek. rewrite Hfail. simpl. rewrite Hfail.
    reflexivity.
  - intros Hneg. unfold Write_storage.
    destruct (Write_open (storage s) (wr_path request) t_fs) as [file d].
    unfold Stream.write, Stream.seek. simpl.
    destruct (Stream.st_fail file) eqn:Hfail; [by rewrite Hfail|].
    destruct (Z.leb_spec 0 (wr_offset request)); [lia|].
    by rewrite andb_false_r.
Qed.

Lemma Write_reports_success_regardless_witness :
  let s := boot readonly_disk in
  let request := mkWriteRequest "a.txt" 0 (bytes_of "HELLO") 100 in
  gate_passes s request ∧
  fst (Write s request 1000 1000) = Returned OK (mkWriteResponse 5) ∧
  storage (snd (Write s request 1000 1000)) = readonly_disk ∧
  Read (snd (Write s request 1000 1000)) (mkReadRequest "a.txt" 0 5) =
    Returned OK (mkReadResponse (bytes_of "hello") 5).
Proof.
  intros s request.
  assert (Hgate : gate_passes s request) by (vm_compute; discriminate).
  split; [exact Hgate|].
  destruct (Write_reports_success_regardless s request 1000 1000 Hgate)
    as (Hfst & Hsto & _).
  split; [exact Hfst|].
  assert (Hsame : storage (snd (Write s request 1000 1000)) = readonly_disk)
    by (apply Hsto; vm_compute; reflexivity).
  split; [exact Hsame|].
  unfold Read. rewrite Hsame. vm_compute. reflexivity.
Defined.

(** ** Sequences of accepted writes *)

Lemma server_mtime_after_accept (s : server) (w : write_call) :
  accepted (fst (do_write s w)) ->
  server_mtime (snd (do_write s w)) (wr_path (wc_request w)) = wc_now w.
Proof.
  unfold do_write. intros Hacc. apply Write_accepted_iff in Hacc.
  rewrite Write_fresh by done. unfold server_mtime. simpl.
  by rewrite lookup_insert_eq.
Qed.

Lemma default_last_cons (a x : Z) (l : list Z) :
  default a (last (x :: l)) = default x (last l).
Proof. rewrite last_cons. by destruct (last l). Qed.

Lemma run_writes_server_mtime (p : string) (ws : list write_call) :
  ∀ s : server,
    Forall (λ w, wr_path (wc_request w) = p) ws ->
    all_accepted s ws ->
    server_mtime (run_writes s ws) p = last_recorded s p ws.
Proof.
  unfold last_recorded.
  induction ws as [|w ws IH]; intros s Hp Hacc; [reflexivity|].
  apply Forall_cons in Hp as [Hw Hp]. destruct Hacc as [Hacc Hrest].
  simpl run_writes. rewrite IH by done.
  rewrite fmap_cons, default_last_cons.
  by rewrite <- Hw, server_mtime_after_accept.
Qed.

(** C2 (as amended).  After any sequence of accepted writes to one path,
    a further write to that path is accepted exactly when its declared
    time is at least the server's clock reading recorded by the last of
    them (with no write in the sequence: at least the threshold already
    in force); the times declared by the earlier writes play no part. *)
Theorem gate_after_accepted_writes
    (s : server) (p : string) (ws : list write_call)
    (next : WriteRequest) (t_fs now : Z) :
  Forall (λ w, wr_path (wc_request w) = p) ws ->
  all_accepted s ws ->
  wr_path next = p ->
  (accepted (fst (Write (run_writes s ws) next t_fs now)) <->
   last_recorded s p ws <= wr_mtime next).
Proof.
  intros Hp Hacc Hnext.
  rewrite Write_accepted_iff, Hnext.
  by rewrite run_writes_server_mtime.
Qed.

Lemma gate_after_accepted_writes_witness :
  Forall (λ w, wr_path (wc_request w) = "a.txt"%string) two_writes ∧
  all_accepted (boot ∅) two_writes ∧
  last_recorded (boot ∅) "a.txt" two_writes = 2000 ∧
  accepted (fst (Write (run_writes (boot ∅) two_writes)
                   (mkWriteRequest "a.txt" 0 (bytes_of "again") 2000) 2001 2001)).
Proof.
  assert (Hp : Forall (λ w, wr_path (wc_request w) = "a.txt"%string) two_writes)
    by (repeat constructor).
  assert (Hacc : all_accepted (boot ∅) two_writes)
    by (vm_compute; tauto).
  split; [exact Hp|]. split; [exact Hacc|]. split; [reflexivity|].
  apply (gate_after_accepted_writes (boot ∅) "a.txt" two_writes
           (mkWriteRequest "a.txt" 0 (bytes_of "again") 2000) 2001 2001
           Hp Hacc eq_refl).
  vm_compute. discriminate.
Defined.

(** C2 as stated fails: two accepted writes with increasing declared
    times 100 and 1500, recorded at server times 1000 and 2000; a third
    write declared at 1600, later than both, is rejected. *)
Lemma gate_declared_times_counterexample :
  let next := mkWriteRequest "a.txt" 0 (bytes_of "again") 1600 in
  all_accepted (boot ∅) two_writes ∧
  (wr_mtime ∘ wc_request) <$> two_writes = [100; 1500] ∧
  Forall (λ t, t <= wr_mtime next) ((wr_mtime ∘ wc_request) <$> two_writes) ∧
  fst (Write (run_writes (boot ∅) two_writes) next 2001 2001) =
    Returned FAILED_PRECONDITION WriteResponse0.
Proof.
  intros next. split; [vm_compute; tauto|].
  split; [reflexivity|].
  split; [repeat constructor; vm_compute; discriminate | reflexivity].
Qed.

(** ** Reads *)

Lemma sys_pread_regular (d : disk) (path : string) (f : inode) (pos n : Z) :
  resolve d path = Some (Regular f) ->
  sys_pread d path pos n = file_slice (i_data f) pos n.
Proof. intros H. unfold sys_pread. by rewrite H. Qed.

Lemma length_file_slice (content : bytes) (offset size : Z) :
  0 <= size ->
  0 <= Z.of_nat (length (file_slice content offset size)) <= size.
Proof.
  intros Hsize. unfold file_slice.
  destruct (offset <? 0); simpl; [lia|].
  rewrite length_take. lia.
Qed.

Lemma Read_spec (s : server) (request : ReadRequest) :
  Read s request =
    match resolve (storage s) (rd_path request) with
    | Some (Regular f) =>
        if rd_size request <? 0 then Thrown
        else
          let got := file_slice (i_data f) (rd_offset request) (rd_size request) in
          Returned OK
            (mkReadResponse
               (got ++ replicate (Z.to_nat (rd_size request) - length got)%nat x00)
               (Z.of_nat (length got)))
    | _ => Returned NOT_FOUND ReadResponse0
    end.
Proof.
  unfold Read, Stream.open. simpl.
  destruct (resolve (storage s) (rd_path request)) as [[f|]|] eqn:Hres.
  - rewrite (sys_open_regular _ _ _ _ _ Hres). simpl.
    unfold string_fill.
    destruct (rd_size request <? 0) eqn:Hneg; [reflexivity|].
    unfold Stream.seek, Stream.read, Stream.is_open, file_slice. simpl.
    destruct (Z.leb_spec 0 (rd_offset request)) as [Hoff|Hoff]; simpl.
    + rewrite (sys_pread_regular _ _ _ _ _ Hres). unfold file_slice.
      destruct (Z.ltb_spec (rd_offset request) 0); [lia|]. simpl.
      by rewrite drop_replicate.
    + destruct (Z.ltb_spec (rd_offset request) 0); [|lia]. simpl.
      by rewrite Nat.sub_0_r.
  - by rewrite (sys_open_unreachable _ _ _ _ Hres).
  - by rewrite (sys_open_free _ _ _ _ Hres).
Qed.

(** C10.  The data field of a successful Read has length exactly [size]:
    its first [bytes_read] bytes are the bytes found in the file and the
    remaining [size - bytes_read] bytes are NUL padding.  The data field
    alone does not tell content from padding: two reads can return the
    same data with different [bytes_read]. *)
Theorem Read_data_padded :
  (∀ (s : server) (request : ReadRequest) (response : ReadResponse),
     Read s request = Returned OK response ->
     Z.of_nat (length (rd_data response)) = rd_size request ∧
     0 <= rd_bytes_read response <= rd_size request ∧
     take (Z.to_nat (rd_bytes_read response)) (rd_data response) =
       sys_pread (storage s) (rd_path request) (rd_offset request) (rd_size request) ∧
     drop (Z.to_nat (rd_bytes_read response)) (rd_data response) =
       replicate (Z.to_nat (rd_size request - rd_bytes_read response)) x00) ∧
  (∃ r1 r2,
     Read (boot lo_disk) (mkReadRequest "a.txt" 0 3) = Returned OK r1 ∧
     Read (boot lo_nul_disk) (mkReadRequest "a.txt" 0 3) = Returned OK r2 ∧
     rd_data r1 = rd_data r2 ∧ rd_bytes_read r1 = 2 ∧ rd_bytes_read r2 = 3).
Proof.
  split.
  - intros s request response. rewrite Read_spec.
    destruct (resolve (storage s) (rd_path request)) as [[f|]|] eqn:Hres;
      [|discriminate..].
    destruct (Z.ltb_spec (rd_size request) 0) as [|Hsize]; [discriminate|].
    simpl. intros [= <-]. simpl.
    rewrite (sys_pread_regular _ _ _ _ _ Hres).
    pose proof (length_file_slice (i_data f) (rd_offset request) _ Hsize) as Hlen.
    set (got := file_slice (i_data f) (rd_offset request) (rd_size request)) in *.
    rewrite Nat2Z.id.
    split; [rewrite length_app, length_replicate; lia|].
    split; [lia|].
    split; [by rewrite take_app_length|].
    rewrite drop_app_length. f_equal. lia.
  - eexists _, _. repeat split.
Qed.

Lemma Read_data_padded_witness :
  Read (boot hello_disk) (mkReadRequest "a.txt" 3 10) =
    Returned OK (mkReadResponse (bytes_of "lo" ++ replicate 8 x00) 2) ∧
  Z.of_nat (length (bytes_of "lo" ++ replicate 8 x00)) = 10.
Proof.
  assert (H : Read (boot hello_disk) (mkReadRequest "a.txt" 3 10) =
              Returned OK (mkReadResponse (bytes_of "lo" ++ replicate 8 x00) 2))
    by reflexivity.
  split; [exact H|].
  exact (proj1 (proj1 Read_data_padded _ _ _ H)).
Defined.




(** ** Round trip *)

Lemma splice_empty (data : bytes) : splice [] 0 data = data.
Proof. unfold splice. simpl. by rewrite drop_nil, app_nil_r. Qed.

(** The store after a write at offset 0 to a free, reachable name. *)
Lemma Write_storage_fresh (s : server) (path : string) (data : bytes)
    (mtime t_fs : Z) :
  resolve (storage s) path = None ->
  resolve (Write_storage s (mkWriteRequest path 0 data mtime) t_fs) path =
    Some (Regular (Inode data t_fs true)).
Proof.
  intros Hfree. unfold Write_storage. simpl.
  rewrite Write_open_spec, Hfree.
  apply resolve_None in Hfree as [Hne Hlk].
  unfold Stream.seek, Stream.write, Stream.is_open, sys_pwrite. simpl.
  destruct data as [|b data]; simpl.
  - by apply resolve_insert_same.
  - rewrite resolve_insert_same by done. simpl.
    rewrite insert_insert_eq, resolve_insert_same by done.
    change (Z.to_nat 0) with 0%nat. by rewrite splice_empty.
Qed.

(** C4 (as amended).  For a payload of N bytes and a path whose name is
    free and reachable in the store (no file there, and one can be
    created), an accepted Write of the payload at offset 0 returns
    [bytes_written] N, and a Read of N bytes at offset 0 then returns
    exactly the payload with [bytes_read] N. *)
Theorem Write_Read_roundtrip
    (s : server) (path : string) (data : bytes) (mtime t_fs now : Z) :
  resolve (storage s) path = None ->
  accepted (fst (Write s (mkWriteRequest path 0 data mtime) t_fs now)) ->
  fst (Write s (mkWriteRequest path 0 data mtime) t_fs now) =
    Returned OK (mkWriteResponse (Z.of_nat (length data))) ∧
  Read (snd (Write s (mkWriteRequest path 0 data mtime) t_fs now))
       (mkReadRequest path 0 (Z.of_nat (length data))) =
    Returned OK (mkReadResponse data (Z.of_nat (length data))).
Proof.
  intros Hfree Hacc. apply Write_accepted_iff in Hacc.
  rewrite Write_fresh by done. cbn [fst snd wr_data].
  split; [reflexivity|].
  rewrite Read_spec. cbn [storage rd_path rd_offset rd_size].
  rewrite Write_storage_fresh by done.
  destruct (Z.ltb_spec (Z.of_nat (length data)) 0); [lia|]. cbn [i_data].
  unfold file_slice. simpl. rewrite Nat2Z.id, firstn_all.
  by rewrite Nat.sub_diag, app_nil_r.
Qed.

Lemma Write_Read_roundtrip_witness :
  let s := boot hello_disk in
  let request := mkWriteRequest "b.txt" 0 (bytes_of "payload") 100 in
  resolve (storage s) "b.txt" = None ∧
  accepted (fst (Write s request 1000 1000)) ∧
  fst (Write s request 1000 1000) = Returned OK (mkWriteResponse 7) ∧
  Read (snd (Write s request 1000 1000)) (mkReadRequest "b.txt" 0 7) =
    Returned OK (mkReadResponse (bytes_of "payload") 7).
Proof.
  intros s request.
  assert (Hfree : resolve (storage s) "b.txt" = None) by reflexivity.
  assert (Hacc : accepted (fst (Write s request 1000 1000)))
    by (vm_compute; exact I).
  split; [exact Hfree|]. split; [exact Hacc|].
  exact (Write_Read_roundtrip s "b.txt" (bytes_of "payload") 100 1000 1000
           Hfree Hacc).
Defined.

(** C4 as stated fails at a path where no file can be created, here the
    empty name: nothing exists there, the Write is accepted and reports
    all bytes written, and the Read that follows fails with NOT_FOUND. *)
Lemma roundtrip_uncreatable_counterexample :
  let s := boot ∅ in
  let request := mkWriteRequest "" 0 (bytes_of "hi") 100 in
  GetAttr s (mkGetAttrRequest "") = Returned NOT_FOUND (mkGetAttrResponse false 0 0) ∧
  fst (Write s request 1000 1000) = Returned OK (mkWriteResponse 2) ∧
  Read (snd (Write s request 1000 1000)) (mkReadRequest "" 0 2) =
    Returned NOT_FOUND ReadResponse0.
Proof. repeat split. Qed.

(** ** Unlink *)

Lemma Unlink_file_versions (s : server) (r : UnlinkRequest) :
  file_versions (snd (Unlink s r)) = file_versions s.
Proof.
  unfold Unlink. destruct (sys_remove (storage s) (ul_path r)) as [result d].
  by destruct (result =? 0).
Qed.

Lemma sys_remove_spec (d : disk) (path : string) :
  sys_remove d path =
    match sys_stat d path with
    | Some _ => (0, delete (c_str path) d)
    | None => (-1, d)
    end.
Proof.
  unfold sys_remove, sys_stat. by destruct (resolve d path) as [[f|]|].
Qed.

Lemma sys_stat_removed (d : disk) (path : string) :
  sys_stat (delete (c_str path) d) path = None.
Proof.
  unfold sys_stat, resolve. simpl.
  destruct (decide (c_str path = EmptyString)); [done|].
  by rewrite lookup_delete_eq.
Qed.

(** C7.  Unlink returns OK with [success = true] exactly when the
    removal of the file succeeds, and GetAttr on the path then reports
    [exists = false] with NOT_FOUND; when the removal fails, as it does
    on a path where no file exists, Unlink returns NOT_FOUND with
    [success = false] and changes nothing. *)
Theorem Unlink_then_GetAttr (s : server) (path : string) :
  (fst (Unlink s (mkUnlinkRequest path)) = Returned OK (mkUnlinkResponse true) <->
     fst (sys_remove (storage s) path) = 0) ∧
  (fst (sys_remove (storage s) path) = 0 ->
     GetAttr (snd (Unlink s (mkUnlinkRequest path))) (mkGetAttrRequest path) =
       Returned NOT_FOUND (mkGetAttrResponse false 0 0)) ∧
  (fst (sys_remove (storage s) path) ≠ 0 ->
     Unlink s (mkUnlinkRequest path) =
       (Returned NOT_FOUND (mkUnlinkResponse false), s)) ∧
  (sys_stat (storage s) path = None ->
     fst (sys_remove (storage s) path) ≠ 0 ∧
     fst (Unlink s (mkUnlinkRequest path)) =
       Returned NOT_FOUND (mkUnlinkResponse false)).
Proof.
  unfold Unlink, GetAttr. simpl. rewrite sys_remove_spec.
  destruct s as [versions d]. simpl.
  destruct (sys_stat d path) as [[size mtime]|] eqn:Hstat; simpl.
  - rewrite sys_stat_removed. repeat split; done.
  - repeat split; done.
Qed.

Lemma Unlink_then_GetAttr_witness :
  let s := boot hello_disk in
  fst (sys_remove (storage s) "a.txt") = 0 ∧
  fst (Unlink s (mkUnlinkRequest "a.txt")) = Returned OK (mkUnlinkResponse true) ∧
  GetAttr (snd (Unlink s (mkUnlinkRequest "a.txt"))) (mkGetAttrRequest "a.txt") =
    Returned NOT_FOUND (mkGetAttrResponse false 0 0).
Proof.
  intros s.
  assert (Hrm : fst (sys_remove (storage s) "a.txt") = 0) by reflexivity.
  destruct (Unlink_then_GetAttr s "a.txt") as (Hiff & Hattr & _ & _).
  split; [exact Hrm|].
  split; [exact (proj2 Hiff Hrm) | exact (Hattr Hrm)].
Defined.

(** ** History of the version table *)

Lemma run_snoc (s : server) (cs : list call) (c : call) :
  run s (cs ++ [c]) = serve (run s cs) c.
Proof. unfold run. apply foldl_snoc. Qed.

Lemma clock_readings_snoc (cs : list call) (c : call) :
  clock_readings (cs ++ [c]) = clock_readings cs ++ clock_readings [c].
Proof. unfold clock_readings. apply omap_app. Qed.

(** A call changes the record of a path only by being an accepted write
    to that path, and then the record is the clock reading of the
    call. *)
Lemma serve_file_versions (s : server) (c : call) (p : string) :
  file_versions (serve s c) !! p = file_versions s !! p ∨
  ∃ w, c = CallWrite w ∧ wr_path (wc_request w) = p ∧
       accepted (fst (do_write s w)) ∧
       file_versions (serve s c) !! p = Some (wc_now w).
Proof.
  destruct c as [r|w|r|r]; simpl; auto.
  - unfold do_write.
    destruct (Z.lt_ge_cases (wr_mtime (wc_request w))
                (server_mtime s (wr_path (wc_request w)))) as [Hlt|Hge].
    + rewrite Write_stale by done. auto.
    + destruct (decide (wr_path (wc_request w) = p)) as [Heq|Hne].
      * right. exists w. rewrite Write_fresh by done. simpl.
        rewrite <- Heq, lookup_insert_eq. auto.
      * left. rewrite Write_fresh by done. simpl.
        by rewrite lookup_insert_ne.
  - left. by rewrite Unlink_file_versions.
Qed.

(** Every record of a server that started with an empty table is a
    clock reading of the trace that led to it. *)
Lemma recorded_is_reading (d : disk) (cs : list call) (p : string) (t : Z) :
  file_versions (run (boot d) cs) !! p = Some t -> t ∈ clock_readings cs.
Proof.
  revert t. induction cs as [|c cs IH] using rev_ind; intros t.
  - simpl. by rewrite lookup_empty.
  - rewrite run_snoc, clock_readings_snoc.
    destruct (serve_file_versions (run (boot d) cs) c p)
      as [Hsame | (w & -> & _ & _ & Hnew)].
    + rewrite Hsame. intros Ht. apply elem_of_app. left. by apply IH.
    + rewrite Hnew. intros [= <-]. apply elem_of_app. right.
      simpl. apply list_elem_of_singleton. reflexivity.
Qed.

(** C6 (as amended).  Along every trace of calls served from start-up:
    an Unlink leaves the version table as it is; the record of a path
    changes only through an accepted Write to that path, which sets it
    to the server's clock reading of that call, and it never decreases
    as long as the server's clock readings are in non-decreasing order; and
    a Write that follows an Unlink is gated against the same timestamp
    as before the Unlink, so a write declared earlier than it is still
    rejected. *)
Theorem version_table_unlink
    (d : disk) (past : list call) (c : call) (p : string) :
  (∀ r, c = CallUnlink r ->
     file_versions (serve (run (boot d) past) c) = file_versions (run (boot d) past)) ∧
  (file_versions (serve (run (boot d) past) c) !! p
     ≠ file_versions (run (boot d) past) !! p ->
   ∃ w, c = CallWrite w ∧ wr_path (wc_request w) = p ∧
        accepted (fst (do_write (run (boot d) past) w)) ∧
        file_versions (serve (run (boot d) past) c) !! p = Some (wc_now w)) ∧
  (StronglySorted Z.le (clock_readings (past ++ [c])) ->
   version_le (file_versions (run (boot d) past) !! p)
              (file_versions (serve (run (boot d) past) c) !! p)) ∧
  (∀ r request t_fs now,
     c = CallUnlink r ->
     server_mtime (serve (run (boot d) past) c) (wr_path request) =
       server_mtime (run (boot d) past) (wr_path request) ∧
     (wr_mtime request < server_mtime (run (boot d) past) (wr_path request) ->
        fst (Write (serve (run (boot d) past) c) request t_fs now) =
          Returned FAILED_PRECONDITION WriteResponse0)).
Proof.
  set (s := run (boot d) past).
  split; [|split; [|split]].
  - intros r ->. apply Unlink_file_versions.
  - intros Hchg.
    destruct (serve_file_versions s c p) as [Hsame | (w & Hc & Hp & Hacc & Hnew)];
      [done | eauto].
  - intros Hsorted.
    destruct (serve_file_versions s c p) as [Hsame | (w & Hc & Hp & Hacc & Hnew)].
    + rewrite Hsame. unfold version_le. destruct (file_versions s !! p); lia.
    + rewrite Hnew. unfold version_le.
      destruct (file_versions s !! p) as [t|] eqn:Hold; [|done].
      rewrite clock_readings_snoc in Hsorted.
      apply (StronglySorted_app_1_elem_of _ _ _ t (wc_now w)) in Hsorted; [done|..].
      * by apply (recorded_is_reading d past p).
      * subst c. simpl. apply list_elem_of_singleton. reflexivity.
  - intros r request t_fs now ->.
    assert (Hsm : server_mtime (serve s (CallUnlink r)) (wr_path request) =
                  server_mtime s (wr_path request)).
    { unfold server_mtime. simpl. by rewrite Unlink_file_versions. }
    split; [exact Hsm|].
    intros Hlt. rewrite Write_stale; [done | by rewrite Hsm].
Qed.

(** A file is written at server time 1000 and removed; a write declared
    at 500 is then rejected although no file exists.  A second accepted
    write moves the record from 1000 to 2000. *)
Lemma version_table_unlink_witness :
  let past := [CallWrite (WriteCall (mkWriteRequest "a.txt" 0 (bytes_of "hello") 100) 1000 1000)] in
  let c := CallUnlink (mkUnlinkRequest "a.txt") in
  let c' := CallWrite (WriteCall (mkWriteRequest "a.txt" 0 (bytes_of "HELLO") 1500) 2000 2000) in
  let request := mkWriteRequest "a.txt" 0 (bytes_of "fresh") 500 in
  GetAttr (serve (run (boot ∅) past) c) (mkGetAttrRequest "a.txt") =
    Returned NOT_FOUND (mkGetAttrResponse false 0 0) ∧
  wr_mtime request < server_mtime (run (boot ∅) past) (wr_path request) ∧
  fst (Write (serve (run (boot ∅) past) c) request 1001 1001) =
    Returned FAILED_PRECONDITION WriteResponse0 ∧
  StronglySorted Z.le (clock_readings (past ++ [c'])) ∧
  version_le (Some 1000) (file_versions (serve (run (boot ∅) past) c') !! "a.txt"%string).
Proof.
  intros past c c' request.
  assert (Hsorted : StronglySorted Z.le (clock_readings (past ++ [c'])))
    by (repeat constructor; vm_compute; discriminate).
  assert (Hlt : wr_mtime request < server_mtime (run (boot ∅) past) (wr_path request))
    by (vm_compute; reflexivity).
  split; [reflexivity|]. split; [exact Hlt|].
  destruct (version_table_unlink ∅ past c "a.txt") as (_ & _ & _ & Hgate).
  destruct (Hgate (mkUnlinkRequest "a.txt") request 1001 1001 eq_refl) as [_ Hrej].
  split; [exact (Hrej Hlt)|]. split; [exact Hsorted|].
  destruct (version_table_unlink ∅ past c' "a.txt") as (_ & _ & Hmono & _).
  exact (Hmono Hsorted).
Defined.

(** C6 as stated fails where it says the record advances monotonically:
    a write is accepted while the server's clock reads 2000, the clock
    is set back, and a second write, declared late enough to pass the
    gate, is accepted while it reads 1500; the record of the path drops
    from 2000 to 1500. *)
Lemma version_record_clock_counterexample :
  let w1 := WriteCall (mkWriteRequest "a.txt" 0 (bytes_of "hello") 100) 2000 2000 in
  let w2 := WriteCall (mkWriteRequest "a.txt" 0 (bytes_of "HELLO") 3000) 1500 1500 in
  accepted (fst (do_write (boot ∅) w1)) ∧
  accepted (fst (do_write (run (boot ∅) [CallWrite w1]) w2)) ∧
  file_versions (run (boot ∅) [CallWrite w1]) !! "a.txt"%string = Some 2000 ∧
  file_versions (run (boot ∅) [CallWrite w1; CallWrite w2]) !! "a.txt"%string
    = Some 1500 ∧
  ¬ version_le (file_versions (run (boot ∅) [CallWrite w1]) !! "a.txt"%string)
      (file_versions (run (boot ∅) [CallWrite w1; CallWrite w2]) !! "a.txt"%string).
Proof.
  intros w1 w2. repeat split; try exact I.
  vm_compute. intros H. apply H. reflexivity.
Qed.

(** ** The write hook *)

Lemma int_of_small (z : Z) : - 2 ^ 31 <= z < 2 ^ 31 -> Fuse.int_of z = z.
Proof.
  intros Hz. unfold Fuse.int_of.
  rewrite Z.mod_small by lia. lia.
Qed.

(** C8.  The write hook returns the byte count of the remote reply when
    the remote call succeeds (the count as an [int], which is the count
    itself whenever it fits) and the one code [-EIO] whenever the remote
    call fails, whatever the failure: a stale-writer rejection with
    FAILED_PRECONDITION gives the same result as any other failure. *)
Theorem dfs_write_result
    (stub_Write : WriteRequest -> StatusCode * WriteResponse) (time_nullptr : Z)
    (path : string) (buf : bytes) (size offset : Z) :
  let reply :=
    stub_Write (mkWriteRequest (Fuse.path_plus_1 path) offset
                  (take (Z.to_nat size) buf) time_nullptr) in
  (fst reply = OK ->
     Fuse.dfs_write stub_Write time_nullptr path buf size offset =
       Fuse.int_of (wr_bytes_written (snd reply)) ∧
     (- 2 ^ 31 <= wr_bytes_written (snd reply) < 2 ^ 31 ->
        Fuse.dfs_write stub_Write time_nullptr path buf size offset =
          wr_bytes_written (snd reply))) ∧
  (fst reply ≠ OK ->
     Fuse.dfs_write stub_Write time_nullptr path buf size offset = - Fuse.EIO) ∧
  (fst reply = FAILED_PRECONDITION ->
     Fuse.dfs_write stub_Write time_nullptr path buf size offset = - Fuse.EIO).
Proof.
  intros reply. unfold Fuse.dfs_write. fold reply.
  destruct reply as [status response]. simpl.
  unfold ok. split; [|split].
  - intros ->. simpl. split; [reflexivity|]. apply int_of_small.
  - intros Hne. by rewrite bool_decide_eq_false_2.
  - intros ->. reflexivity.
Qed.

(** The hook against the server itself: a write the gate turns away
    comes back as [-EIO], an accepted one as its byte count. *)
Lemma dfs_write_result_witness :
  let s := run_writes (boot ∅) two_writes in
  Fuse.dfs_write (Fuse.remote_Write s 2001 2001) 1600 "/a.txt" (bytes_of "again") 5 0
    = - Fuse.EIO ∧
  Fuse.dfs_write (Fuse.remote_Write s 2001 2001) 2000 "/a.txt" (bytes_of "again") 5 0
    = 5.
Proof.
  intros s. split.
  - apply (proj1 (proj2 (dfs_write_result (Fuse.remote_Write s 2001 2001) 1600
                           "/a.txt" (bytes_of "again") 5 0))).
    vm_compute. discriminate.
  - destruct (proj1 (dfs_write_result (Fuse.remote_Write s 2001 2001) 2000
                       "/a.txt" (bytes_of "again") 5 0)) as [_ Hfits].
    + reflexivity.
    + apply Hfits. vm_compute. split; [discriminate | reflexivity].
Defined.

(** * Further properties of the service *)

(** ** The store after a write *)

Lemma resolve_c_str (d : disk) (p q : string) :
  c_str q = c_str p -> resolve d q = resolve d p.
Proof. intros H. unfold resolve. by rewrite H. Qed.

Lemma resolve_insert_other (d : disk) (p q : string) (e : entry) :
  c_str q ≠ c_str p -> resolve (<[c_str p := e]> d) q = resolve d q.
Proof.
  intros Hne. unfold resolve. simpl.
  destruct (decide (c_str q = EmptyString)); [done|].
  by rewrite lookup_insert_ne.
Qed.

Lemma Write_storage_spec (s : server) (request : WriteRequest) (t_fs : Z) :
  Write_storage s request t_fs =
    match resolve (storage s) (wr_path request) with
    | Some (Regular f) =>
        if i_writable f && touches (wr_offset request) (wr_data request)
        then <[c_str (wr_path request) :=
                 Regular (Inode (content_after (i_data f) (wr_offset request)
                                   (wr_data request)) t_fs true)]> (storage s)
        else storage s
    | Some Unreachable => storage s
    | None =>
        <[c_str (wr_path request) :=
            Regular (Inode (content_after [] (wr_offset request) (wr_data request))
                       t_fs true)]> (storage s)
    end.
Proof.
  unfold Write_storage. rewrite Write_open_spec.
  destruct request as [path offset data mtime]. simpl.
  destruct (resolve (storage s) path) as [[f|]|] eqn:Hres.
  - destruct (i_writable f) eqn:Hw; simpl; [|reflexivity].
    unfold Stream.seek, Stream.write, Stream.is_open, sys_pwrite, touches,
      content_after. simpl.
    destruct data as [|b data]; simpl.
    + by destruct (0 <=? offset).
    + destruct (Z.leb_spec 0 offset); simpl.
      * rewrite Hres, Hw. destruct (Z.ltb_spec offset 0); [lia | done].
      * reflexivity.
  - reflexivity.
  - pose proof Hres as Hfree. apply resolve_None in Hfree as [Hne Hlk].
    unfold Stream.seek, Stream.write, Stream.is_open, sys_pwrite, content_after.
    simpl.
    destruct data as [|b data]; simpl.
    + by destruct (0 <=? offset).
    + destruct (Z.leb_spec 0 offset); simpl.
      * rewrite resolve_insert_same by done. simpl.
        rewrite insert_insert_eq.
        destruct (Z.ltb_spec offset 0); [lia | done].
      * destruct (Z.ltb_spec offset 0); [done | lia].
Qed.

Lemma Write_storage_other (s : server) (request : WriteRequest) (t_fs : Z)
    (q : string) :
  c_str q ≠ c_str (wr_path request) ->
  resolve (Write_storage s request t_fs) q = resolve (storage s) q.
Proof.
  intros Hne. rewrite Write_storage_spec.
  destruct (resolve (storage s) (wr_path request)) as [[f|]|];
    [destruct (i_writable f && touches _ _)|..];
    try reflexivity; by apply resolve_insert_other.
Qed.

Lemma Write_open_is_open (d : disk) (path : string) (t_fs : Z) :
  Stream.is_open (fst (Write_open d path t_fs)) = true <->
  match resolve d path with
  | Some (Regular f) => i_writable f = true
  | Some Unreachable => False
  | None => True
  end.
Proof.
  rewrite Write_open_spec.
  destruct (resolve d path) as [[f|]|]; [destruct (i_writable f)|..];
    simpl; split; intros; try done; congruence.
Qed.

Lemma resolve_Regular (d : disk) (path : string) (f : inode) :
  resolve d path = Some (Regular f) -> c_str path ≠ EmptyString.
Proof.
  unfold resolve. simpl.
  destruct (decide (c_str path = EmptyString)); [discriminate | done].
Qed.

Lemma content_after_untouched (old : bytes) (offset : Z) (data : bytes) :
  touches offset data = false -> content_after old offset data = old.
Proof.
  unfold touches, content_after. destruct data; [done|].
  intros H. destruct (Z.leb_spec 0 offset); [done|].
  destruct (Z.ltb_spec offset 0); [done | lia].
Qed.

(** The file a write leaves under its name once the open sequence has
    succeeded: [old] is what was there, nothing for a new file. *)
Lemma Write_storage_same (s : server) (request : WriteRequest) (t_fs : Z)
    (q : string) :
  c_str q = c_str (wr_path request) ->
  Stream.is_open (fst (Write_open (storage s) (wr_path request) t_fs)) = true ->
  ∃ old mtime,
    (resolve (storage s) (wr_path request) = None ∧ old = [] ∨
     ∃ t, resolve (storage s) (wr_path request) = Some (Regular (Inode old t true))) ∧
    resolve (Write_storage s request t_fs) q =
      Some (Regular (Inode (content_after old (wr_offset request) (wr_data request))
                       mtime true)) ∧
    (touches (wr_offset request) (wr_data request) = true -> mtime = t_fs).
Proof.
  intros Hq Hopen. apply Write_open_is_open in Hopen.
  rewrite (resolve_c_str _ _ _ Hq), Write_storage_spec.
  destruct (resolve (storage s) (wr_path request)) as [[f|]|] eqn:Hres; [|done|].
  - destruct f as [old t w]. simpl in Hopen. subst w. simpl.
    pose proof (resolve_Regular _ _ _ Hres) as Hne.
    destruct (touches (wr_offset request) (wr_data request)) eqn:Htouch.
    + exists old, t_fs. split; [right; eauto|].
      split; [by apply resolve_insert_same | done].
    + exists old, t. split; [right; eauto|].
      rewrite content_after_untouched by done. by rewrite Hres.
  - exists [], t_fs. split; [left; done|].
    apply resolve_None in Hres as [Hne _].
    split; [by apply resolve_insert_same | done].
Qed.

Lemma length_splice (old : bytes) (pos : nat) (data : bytes) :
  length (splice old pos data) = (length old `max` (pos + length data))%nat.
Proof.
  unfold splice.
  rewrite !length_app, length_take, length_replicate, length_drop. lia.
Qed.

Lemma slice_splice (old : bytes) (pos : nat) (data : bytes) :
  take (length data) (drop pos (splice old pos data)) = data.
Proof.
  unfold splice. rewrite (app_assoc (take pos old)).
  rewrite drop_app_length'
    by (rewrite length_app, length_take, length_replicate; lia).
  by rewrite take_app_length.
Qed.

Lemma length_content_after (old : bytes) (offset : Z) (data : bytes) :
  (length old <= length (content_after old offset data))%nat.
Proof.
  unfold content_after. destruct data; [lia|].
  destruct (offset <? 0); [lia|]. rewrite length_splice. lia.
Qed.

Lemma file_slice_content_after (old : bytes) (offset : Z) (data : bytes) :
  0 <= offset ->
  file_slice (content_after old offset data) offset (Z.of_nat (length data)) = data.
Proof.
  intros Hoff. unfold file_slice, content_after.
  destruct (Z.ltb_spec offset 0); [lia|]. rewrite Nat2Z.id.
  destruct data as [|b data]; [by rewrite take_0|].
  apply slice_splice.
Qed.

Lemma Read_regular (s : server) (path : string) (f : inode) (offset size : Z) :
  resolve (storage s) path = Some (Regular f) ->
  0 <= size ->
  Read s (mkReadRequest path offset size) =
    Returned OK
      (mkReadResponse
         (file_slice (i_data f) offset size
            ++ replicate (Z.to_nat size - length (file_slice (i_data f) offset size))%nat x00)
         (Z.of_nat (length (file_slice (i_data f) offset size)))).
Proof.
  intros Hres Hsize. rewrite Read_spec. simpl. rewrite Hres.
  by destruct (Z.ltb_spec size 0); [lia|].
Qed.

Lemma sys_open_in_out (d : disk) (path : string) (t : Z) :
  sys_open d path ios_in_out t ≠ None ->
  ∃ f, resolve d path = Some (Regular f) ∧ i_writable f = true.
Proof.
  unfold sys_open.
  destruct (resolve d path) as [[f|]|]; [|done..].
  destruct (i_writable f) eqn:Hw; [eauto | done].
Qed.

Lemma splice_inside (old : bytes) (pos : nat) (data : bytes) :
  (pos + length data <= length old)%nat ->
  splice old pos data = take pos old ++ data ++ drop (pos + length data) old.
Proof.
  intros H. unfold splice.
  by replace (pos - length old)%nat with 0%nat by lia.
Qed.

(** Bytes outside the range an in-place write covers. *)
Lemma file_slice_splice_outside (old : bytes) (pos : nat) (data : bytes)
    (o n : Z) :
  (pos + length data <= length old)%nat ->
  o + n <= Z.of_nat pos ∨ Z.of_nat (pos + length data) <= o ->
  file_slice (splice old pos data) o n = file_slice old o n.
Proof.
  intros Hin Hout. rewrite splice_inside by done. unfold file_slice.
  destruct (Z.ltb_spec o 0); [reflexivity|].
  destruct (Z.le_gt_cases n 0) as [Hn|Hn].
  { replace (Z.to_nat n) with 0%nat by lia. reflexivity. }
  destruct Hout as [Hbefore|Hafter].
  - rewrite !take_drop_commute. f_equal.
    rewrite take_app_le by (rewrite length_take; lia).
    rewrite take_take. f_equal. lia.
  - f_equal.
    replace (Z.to_nat o) with ((pos + length data) + (Z.to_nat o - (pos + length data)))%nat
      by lia.
    set (k := (Z.to_nat o - (pos + length data))%nat).
    rewrite <- (drop_drop old k), <- (drop_drop (_ ++ _) k). f_equal.
    rewrite app_assoc. apply drop_app_length'.
    rewrite length_app, length_take. lia.
Qed.

Lemma length_splice_inside (old : bytes) (pos : nat) (data : bytes) :
  (pos + length data <= length old)%nat ->
  length (splice old pos data) = length old.
Proof. intros H. rewrite length_splice. lia. Qed.

Lemma content_after_inside (old : bytes) (offset : Z) (data : bytes) :
  0 <= offset ->
  offset + Z.of_nat (length data) <= Z.of_nat (length old) ->
  length (content_after old offset data) = length old ∧
  ∀ o n,
    o + n <= offset ∨ offset + Z.of_nat (length data) <= o ->
    file_slice (content_after old offset data) o n = file_slice old o n.
Proof.
  intros Hoff Hin. unfold content_after.
  destruct data as [|b data]; [done|].
  destruct (Z.ltb_spec offset 0); [lia|].
  split; [apply length_splice_inside; lia|].
  intros o n Hout. apply file_slice_splice_outside; lia.
Qed.

(** ** Writes inside a file *)

(** X1.  Overwriting in place.  When the file holds [old], opens for
    reading and writing, and the written range lies inside it (offset
    not negative, offset plus the length of the data at most the length
    of [old]), an accepted Write is read back unchanged at its offset,
    the size GetAttr reports stays the length of [old], and every Read
    of a range that does not meet the written one answers as before the
    call. *)
Theorem Write_in_place
    (s : server) (request : WriteRequest) (t_fs now : Z)
    (old : bytes) (t : Z) (w : bool) :
  resolve (storage s) (wr_path request) = Some (Regular (Inode old t w)) ->
  sys_open (storage s) (wr_path request) ios_in_out t_fs ≠ None ->
  gate_passes s request ->
  0 <= wr_offset request ->
  wr_offset request + Z.of_nat (length (wr_data request)) <= Z.of_nat (length old) ->
  Read (snd (Write s request t_fs now))
       (mkReadRequest (wr_path request) (wr_offset request)
          (Z.of_nat (length (wr_data request)))) =
    Returned OK (mkReadResponse (wr_data request)
                   (Z.of_nat (length (wr_data request)))) ∧
  (∃ mtime,
     GetAttr (snd (Write s request t_fs now)) (mkGetAttrRequest (wr_path request)) =
       Returned OK (mkGetAttrResponse true (Z.of_nat (length old)) mtime)) ∧
  (∀ o n,
     o + n <= wr_offset request ∨
     wr_offset request + Z.of_nat (length (wr_data request)) <= o ->
     Read (snd (Write s request t_fs now)) (mkReadRequest (wr_path request) o n) =
       Read s (mkReadRequest (wr_path request) o n)).
Proof.
  intros Hres Hopen Hgate Hoff Hin. unfold gate_passes in Hgate.
  apply sys_open_in_out in Hopen as (f & Hf & Hw).
  rewrite Hres in Hf. injection Hf as <-. simpl in Hw. subst w.
  pose proof (resolve_Regular _ _ _ Hres) as Hname.
  rewrite Write_fresh by done. cbn [snd].
  assert (Hnew : ∃ mtime,
            resolve (Write_storage s request t_fs) (wr_path request) =
              Some (Regular (Inode (content_after old (wr_offset request)
                                      (wr_data request)) mtime true))).
  { rewrite Write_storage_spec, Hres. cbn [i_writable i_data andb].
    destruct (touches (wr_offset request) (wr_data request)) eqn:Htouch.
    - eexists. by apply resolve_insert_same.
    - exists t. by rewrite content_after_untouched. }
  destruct Hnew as [mtime Hnew].
  destruct (content_after_inside old _ _ Hoff Hin) as [Hlen Hslice].
  split; [|split].
  - erewrite Read_regular by (cbn [storage]; first [exact Hnew | lia]).
    cbn [i_data]. rewrite file_slice_content_after by done.
    by rewrite Nat2Z.id, Nat.sub_diag, app_nil_r.
  - exists mtime. unfold GetAttr, sys_stat. cbn [ga_path storage].
    rewrite Hnew. cbn [i_data i_mtime]. by rewrite Hlen.
  - intros o n Hout. rewrite !Read_spec. cbn [rd_path rd_offset rd_size storage].
    rewrite Hnew, Hres. cbn [i_data].
    by rewrite (Hslice o n Hout).
Qed.

Lemma Write_in_place_witness :
  let s := boot hello_disk in
  let request := mkWriteRequest "a.txt" 1 (bytes_of "ipp") 100 in
  resolve (storage s) "a.txt" = Some (Regular (Inode (bytes_of "hello") 100 true)) ∧
  sys_open (storage s) "a.txt" ios_in_out 1000 ≠ None ∧
  gate_passes s request ∧
  Read (snd (Write s request 1000 1000)) (mkReadRequest "a.txt" 1 3) =
    Returned OK (mkReadResponse (bytes_of "ipp") 3) ∧
  Read (snd (Write s request 1000 1000)) (mkReadRequest "a.txt" 0 5) =
    Returned OK (mkReadResponse (bytes_of "hippo") 5).
Proof.
  intros s request.
  assert (Hres : resolve (storage s) (wr_path request) =
                 Some (Regular (Inode (bytes_of "hello") 100 true)))
    by reflexivity.
  assert (Hopen : sys_open (storage s) (wr_path request) ios_in_out 1000 ≠ None)
    by (vm_compute; discriminate).
  assert (Hgate : gate_passes s request) by (vm_compute; discriminate).
  split; [exact Hres|]. split; [exact Hopen|]. split; [exact Hgate|].
  split; [|reflexivity].
  apply (Write_in_place s request 1000 1000 (bytes_of "hello") 100 true
           Hres Hopen Hgate); vm_compute; discriminate.
Defined.

(** X2.  A Write does not remove or shorten a file, provided its own
    path is either not found by [stat], or opens for reading and
    writing, or cannot be opened for writing at all (what is left out is
    a file that opens for writing only, which the second open of the
    handler empties): a file that GetAttr reports before the call is
    reported after it, with a size at least as large. *)
Theorem Write_never_shrinks
    (s : server) (request : WriteRequest) (t_fs now : Z)
    (q : string) (size mtime : Z) :
  sys_stat (storage s) (wr_path request) = None ∨
  sys_open (storage s) (wr_path request) ios_in_out t_fs ≠ None ∨
  sys_open (storage s) (wr_path request) ios_out t_fs = None ->
  GetAttr s (mkGetAttrRequest q) = Returned OK (mkGetAttrResponse true size mtime) ->
  ∃ size' mtime',
    GetAttr (snd (Write s request t_fs now)) (mkGetAttrRequest q) =
      Returned OK (mkGetAttrResponse true size' mtime') ∧
    size <= size'.
Proof.
  intros _. unfold GetAttr, sys_stat. simpl.
  destruct (resolve (storage s) q) as [[f|]|] eqn:Hq; try discriminate.
  intros [= <- <-].
  destruct (Z.lt_ge_cases (wr_mtime request) (server_mtime s (wr_path request))).
  { rewrite Write_stale by done. simpl. rewrite Hq. eauto with lia. }
  rewrite Write_fresh by done. simpl.
  destruct (decide (c_str q = c_str (wr_path request))) as [Heq|Hne].
  - assert (Hp : resolve (storage s) (wr_path request) = Some (Regular f))
      by (by rewrite <- (resolve_c_str _ _ _ Heq)).
    rewrite (resolve_c_str _ _ _ Heq), Write_storage_spec, Hp.
    pose proof (resolve_Regular _ _ _ Hp) as Hname.
    destruct (i_writable f && touches _ _).
    + rewrite resolve_insert_same by done. simpl.
      eexists _, _. split; [reflexivity|].
      pose proof (length_content_after (i_data f) (wr_offset request)
                    (wr_data request)). lia.
    + rewrite Hp. eauto with lia.
  - rewrite Write_storage_other by done. rewrite Hq. eauto with lia.
Qed.

Lemma Write_never_shrinks_witness :
  let s := boot hello_disk in
  let request := mkWriteRequest "a.txt" 1 (bytes_of "E") 100 in
  sys_open (storage s) (wr_path request) ios_in_out 1000 ≠ None ∧
  GetAttr s (mkGetAttrRequest "a.txt") =
    Returned OK (mkGetAttrResponse true 5 100) ∧
  ∃ size' mtime',
    GetAttr (snd (Write s request 1000 1000)) (mkGetAttrRequest "a.txt") =
      Returned OK (mkGetAttrResponse true size' mtime') ∧
    5 <= size'.
Proof.
  intros s request.
  assert (Hopen : sys_open (storage s) (wr_path request) ios_in_out 1000 ≠ None)
    by (vm_compute; discriminate).
  assert (H : GetAttr s (mkGetAttrRequest "a.txt") =
              Returned OK (mkGetAttrResponse true 5 100)) by reflexivity.
  split; [exact Hopen|]. split; [exact H|].
  exact (Write_never_shrinks s request 1000 1000 "a.txt" 5 100
           (or_intror (or_introl Hopen)) H).
Defined.

(** ** Writes past the end of a file *)

Lemma splice_past_end (old : bytes) (pos : nat) (data : bytes) :
  (length old <= pos)%nat ->
  splice old pos data = old ++ replicate (pos - length old)%nat x00 ++ data.
Proof.
  intros H. unfold splice.
  by rewrite take_ge, drop_ge, app_nil_r by lia.
Qed.

(** X3.  Writing past the end.  When the file holds [old] and opens for
    reading and writing, an accepted Write of at least one byte at an
    offset at or past the end of [old], ending below 2^31, makes the
    file [offset] plus the length of the data long, with the kernel's
    timestamp of the call; the bytes between the old end and the offset
    read as NUL, followed by the data. *)
Theorem Write_past_end
    (s : server) (request : WriteRequest) (t_fs now : Z)
    (old : bytes) (t : Z) (w : bool) :
  resolve (storage s) (wr_path request) = Some (Regular (Inode old t w)) ->
  sys_open (storage s) (wr_path request) ios_in_out t_fs ≠ None ->
  gate_passes s request ->
  Z.of_nat (length old) <= wr_offset request ->
  wr_offset request + Z.of_nat (length (wr_data request)) <= 2 ^ 31 - 1 ->
  wr_data request ≠ [] ->
  GetAttr (snd (Write s request t_fs now)) (mkGetAttrRequest (wr_path request)) =
    Returned OK
      (mkGetAttrResponse true
         (wr_offset request + Z.of_nat (length (wr_data request))) t_fs) ∧
  Read (snd (Write s request t_fs now))
       (mkReadRequest (wr_path request) (Z.of_nat (length old))
          (wr_offset request + Z.of_nat (length (wr_data request))
             - Z.of_nat (length old))) =
    Returned OK
      (mkReadResponse
         (replicate (Z.to_nat (wr_offset request) - length old)%nat x00
            ++ wr_data request)
         (wr_offset request + Z.of_nat (length (wr_data request))
            - Z.of_nat (length old))).
Proof.
  intros Hres Hopen Hgate Hoff _ Hdata. unfold gate_passes in Hgate.
  apply sys_open_in_out in Hopen as (f & Hf & Hw).
  rewrite Hres in Hf. injection Hf as <-. simpl in Hw. subst w.
  pose proof (resolve_Regular _ _ _ Hres) as Hname.
  rewrite Write_fresh by done. cbn [snd].
  set (pos := Z.to_nat (wr_offset request)).
  set (data := wr_data request) in *.
  assert (Hnew : resolve (Write_storage s request t_fs) (wr_path request) =
                 Some (Regular (Inode (old ++ replicate (pos - length old)%nat x00
                                         ++ data) t_fs true))).
  { rewrite Write_storage_spec, Hres. cbn [i_writable i_data andb].
    unfold touches, content_after. fold data. destruct data; [done|].
    destruct (Z.leb_spec 0 (wr_offset request)); [|lia].
    destruct (Z.ltb_spec (wr_offset request) 0); [lia|].
    rewrite splice_past_end by (unfold pos; lia).
    by apply resolve_insert_same. }
  split.
  - unfold GetAttr, sys_stat. cbn [ga_path storage]. rewrite Hnew.
    cbn [i_data i_mtime]. do 3 f_equal.
    rewrite !length_app, length_replicate. unfold pos. lia.
  - erewrite Read_regular by (cbn [storage]; first [exact Hnew | lia]).
    cbn [i_data]. unfold file_slice.
    destruct (Z.ltb_spec (Z.of_nat (length old)) 0); [lia|].
    rewrite Nat2Z.id, drop_app_length.
    rewrite take_ge by (rewrite length_app, length_replicate; unfold pos; lia).
    rewrite length_app, length_replicate.
    replace (Z.to_nat _ - _)%nat with 0%nat by (unfold pos; lia).
    rewrite app_nil_r. do 2 f_equal. unfold pos. lia.
Qed.

Lemma Write_past_end_witness :
  let s := boot hello_disk in
  let request := mkWriteRequest "a.txt" 8 (bytes_of "you") 100 in
  resolve (storage s) "a.txt" = Some (Regular (Inode (bytes_of "hello") 100 true)) ∧
  sys_open (storage s) "a.txt" ios_in_out 1000 ≠ None ∧
  gate_passes s request ∧
  GetAttr (snd (Write s request 1000 1000)) (mkGetAttrRequest "a.txt") =
    Returned OK (mkGetAttrResponse true 11 1000) ∧
  Read (snd (Write s request 1000 1000)) (mkReadRequest "a.txt" 5 6) =
    Returned OK (mkReadResponse ([x00; x00; x00] ++ bytes_of "you") 6).
Proof.
  intros s request.
  assert (Hres : resolve (storage s) (wr_path request) =
                 Some (Regular (Inode (bytes_of "hello") 100 true)))
    by reflexivity.
  assert (Hopen : sys_open (storage s) (wr_path request) ios_in_out 1000 ≠ None)
    by (vm_compute; discriminate).
  assert (Hgate : gate_passes s request) by (vm_compute; discriminate).
  split; [exact Hres|]. split; [exact Hopen|]. split; [exact Hgate|].
  apply (Write_past_end s request 1000 1000 (bytes_of "hello") 100 true
           Hres Hopen Hgate); vm_compute; discriminate.
Defined.

(** ** Other records *)

(** X4.  The gate of one path is not moved by a Write to another: after
    any Write, accepted or not, a write to a path that differs from its
    path as a string is accepted exactly when it was accepted before. *)
Theorem other_paths_gate_unchanged
    (s : server) (w : WriteRequest) (t_fs now : Z)
    (request : WriteRequest) (t_fs' now' : Z) :
  wr_path request ≠ wr_path w ->
  server_mtime (snd (Write s w t_fs now)) (wr_path request) =
    server_mtime s (wr_path request) ∧
  (accepted (fst (Write (snd (Write s w t_fs now)) request t_fs' now')) <->
   accepted (fst (Write s request t_fs' now'))).
Proof.
  intros Hne.
  assert (Hsm : server_mtime (snd (Write s w t_fs now)) (wr_path request) =
                server_mtime s (wr_path request)).
  { unfold server_mtime.
    destruct (serve_file_versions s (CallWrite (WriteCall w t_fs now))
                (wr_path request))
      as [Hsame | (w' & [= <-] & Hp & _)]; [|done].
    simpl in Hsame. unfold do_write in Hsame. simpl in Hsame. by rewrite Hsame. }
  split; [exact Hsm|]. by rewrite !Write_accepted_iff, Hsm.
Qed.

Lemma other_paths_gate_unchanged_witness :
  let s := run_writes (boot ∅) two_writes in
  let w := mkWriteRequest "a.txt" 0 (bytes_of "third") 5000 in
  let request := mkWriteRequest "b.txt" 0 (bytes_of "other") 100 in
  wr_path request ≠ wr_path w ∧
  accepted (fst (Write s w 6000 6000)) ∧
  accepted (fst (Write (snd (Write s w 6000 6000)) request 6001 6001)).
Proof.
  intros s w request.
  assert (Hne : wr_path request ≠ wr_path w) by discriminate.
  split; [exact Hne|]. split; [vm_compute; exact I|].
  apply (proj2 (other_paths_gate_unchanged s w 6000 6000 request 6001 6001 Hne)).
  vm_compute. exact I.
Defined.

(** ** Reads at the edges *)




Lemma Unlink_storage_gone (s : server) (r : UnlinkRequest) :
  sys_stat (storage (snd (Unlink s r))) (ul_path r) = None.
Proof.
  unfold Unlink. rewrite sys_remove_spec.
  destruct (sys_stat (storage s) (ul_path r)) eqn:Hstat; simpl;
    [apply sys_stat_removed | exact Hstat].
Qed.

Lemma Read_not_found (s : server) (path : string) (offset size : Z) :
  sys_stat (storage s) path = None ->
  Read s (mkReadRequest path offset size) = Returned NOT_FOUND ReadResponse0.
Proof.
  rewrite Read_spec. unfold sys_stat. simpl.
  by destruct (resolve (storage s) path) as [[f|]|].
Qed.

(** X6.  Read and GetAttr on one path: where GetAttr fails with
    NOT_FOUND every Read fails with NOT_FOUND; and for a regular file,
    whenever a Read of [size] bytes at offset 0 returns OK its
    [bytes_read] is the smaller of [size] and the size GetAttr
    reports. *)
Theorem Read_agrees_with_GetAttr (s : server) (path : string) :
  (GetAttr s (mkGetAttrRequest path) =
     Returned NOT_FOUND (mkGetAttrResponse false 0 0) ->
   ∀ offset size,
     Read s (mkReadRequest path offset size) = Returned NOT_FOUND ReadResponse0) ∧
  (∀ f size response,
     resolve (storage s) path = Some (Regular f) ->
     Read s (mkReadRequest path 0 size) = Returned OK response ->
     GetAttr s (mkGetAttrRequest path) =
       Returned OK (mkGetAttrResponse true (Z.of_nat (length (i_data f))) (i_mtime f)) ∧
     rd_bytes_read response = Z.min (Z.of_nat (length (i_data f))) size).
Proof.
  split.
  - unfold GetAttr. simpl.
    destruct (sys_stat (storage s) path) as [[??]|] eqn:Hstat; [discriminate|].
    intros _ offset size. by apply Read_not_found.
  - intros f size response Hres. rewrite Read_spec. unfold GetAttr, sys_stat.
    simpl. rewrite Hres.
    destruct (Z.ltb_spec size 0); [discriminate|].
    intros [= <-]. split; [reflexivity|]. simpl. unfold file_slice. simpl.
    rewrite length_take, length_drop. lia.
Qed.

Lemma Read_agrees_with_GetAttr_witness :
  resolve (storage (boot hello_disk)) "a.txt" =
    Some (Regular (Inode (bytes_of "hello") 100 true)) ∧
  Read (boot hello_disk) (mkReadRequest "a.txt" 0 1024) =
    Returned OK (mkReadResponse (bytes_of "hello" ++ replicate 1019 x00) 5) ∧
  5 = Z.min 5 1024 ∧
  GetAttr (boot ∅) (mkGetAttrRequest "a.txt") =
    Returned NOT_FOUND (mkGetAttrResponse false 0 0) ∧
  Read (boot ∅) (mkReadRequest "a.txt" 0 1024) = Returned NOT_FOUND ReadResponse0.
Proof.
  assert (H : resolve (storage (boot hello_disk)) "a.txt" =
              Some (Regular (Inode (bytes_of "hello") 100 true))) by reflexivity.
  assert (R : Read (boot hello_disk) (mkReadRequest "a.txt" 0 1024) =
              Returned OK (mkReadResponse (bytes_of "hello" ++ replicate 1019 x00) 5))
    by (vm_compute; reflexivity).
  assert (G : GetAttr (boot ∅) (mkGetAttrRequest "a.txt") =
              Returned NOT_FOUND (mkGetAttrResponse false 0 0)) by reflexivity.
  split; [exact H|]. split; [exact R|].
  split; [exact (proj2 (proj2 (Read_agrees_with_GetAttr (boot hello_disk) "a.txt")
                          _ _ _ H R))|].
  split; [exact G|].
  exact (proj1 (Read_agrees_with_GetAttr (boot ∅) "a.txt") G 0 1024).
Defined.

(** ** Unlink, again *)

(** X7.  The reply of Unlink and the store it leaves do not depend on
    the version table.  After an Unlink that returned OK nothing is
    found under the path: every Read fails with NOT_FOUND, and a second
    Unlink fails with NOT_FOUND, [success] unset, and changes
    nothing. *)
Theorem Unlink_then_again (s : server) (path : string) :
  (∀ versions,
     fst (Unlink (Server versions (storage s)) (mkUnlinkRequest path)) =
       fst (Unlink s (mkUnlinkRequest path)) ∧
     storage (snd (Unlink (Server versions (storage s)) (mkUnlinkRequest path))) =
       storage (snd (Unlink s (mkUnlinkRequest path)))) ∧
  (fst (Unlink s (mkUnlinkRequest path)) = Returned OK (mkUnlinkResponse true) ->
     (∀ offset size,
        Read (snd (Unlink s (mkUnlinkRequest path)))
             (mkReadRequest path offset size) =
          Returned NOT_FOUND ReadResponse0) ∧
     Unlink (snd (Unlink s (mkUnlinkRequest path))) (mkUnlinkRequest path) =
       (Returned NOT_FOUND (mkUnlinkResponse false),
        snd (Unlink s (mkUnlinkRequest path)))).
Proof.
  split.
  - intros versions. unfold Unlink. simpl.
    destruct (sys_remove (storage s) path) as [result d].
    by destruct (result =? 0).
  - intros _.
    pose proof (Unlink_storage_gone s (mkUnlinkRequest path)) as Hgone.
    simpl in Hgone. split.
    + intros offset size. by apply Read_not_found.
    + destruct (snd (Unlink s (mkUnlinkRequest path))) as [versions d].
      unfold Unlink. simpl in *. rewrite sys_remove_spec, Hgone. reflexivity.
Qed.

(** The record of "a.txt" is 2000: a write declared at 1999 is rejected,
    the Unlink goes through, and a second one finds nothing. *)
Lemma Unlink_then_again_witness :
  let s := run_writes (boot ∅) two_writes in
  fst (Write s (mkWriteRequest "a.txt" 0 [] 1999) 2001 2001) =
    Returned FAILED_PRECONDITION WriteResponse0 ∧
  fst (Unlink s (mkUnlinkRequest "a.txt")) = Returned OK (mkUnlinkResponse true) ∧
  fst (Unlink (snd (Unlink s (mkUnlinkRequest "a.txt"))) (mkUnlinkRequest "a.txt")) =
    Returned NOT_FOUND (mkUnlinkResponse false).
Proof.
  intros s.
  assert (H : fst (Unlink s (mkUnlinkRequest "a.txt")) =
              Returned OK (mkUnlinkResponse true)) by reflexivity.
  split; [reflexivity|]. split; [exact H|].
  destruct (proj2 (Unlink_then_again s "a.txt") H) as [_ Hagain].
  by rewrite Hagain.
Defined.

(** ** Path names with a NUL character *)

Lemma c_str_app_NUL (p sfx : string) :
  c_str (p +:+ String NUL sfx) = c_str p.
Proof.
  induction p as [|a p IH]; simpl; [reflexivity|].
  destruct (Ascii.eqb a Ascii.zero); [reflexivity | by rewrite IH].
Qed.

Lemma app_NUL_neq (p sfx : string) : p +:+ String NUL sfx ≠ p.
Proof.
  induction p as [|a p IH]; simpl; [discriminate|].
  intros [= H]. by apply IH.
Qed.

(** X8.  The gate is keyed by the whole path string, the file by the
    path up to its first NUL character.  A write whose path is [p]
    followed by a NUL and any suffix is checked against the record of
    that longer string only, yet it writes the file of [p]: its data is
    read back under [p], and the record of [p] stays as it was. *)
Theorem gate_keyed_by_whole_path
    (s : server) (p sfx : string) (data : bytes) (mtime t_fs now : Z) :
  Stream.is_open (fst (Write_open (storage s) p t_fs)) = true ->
  server_mtime s (p +:+ String NUL sfx) <= mtime ->
  fst (Write s (mkWriteRequest (p +:+ String NUL sfx) 0 data mtime) t_fs now) =
    Returned OK (mkWriteResponse (Z.of_nat (length data))) ∧
  Read (snd (Write s (mkWriteRequest (p +:+ String NUL sfx) 0 data mtime) t_fs now))
       (mkReadRequest p 0 (Z.of_nat (length data))) =
    Returned OK (mkReadResponse data (Z.of_nat (length data))) ∧
  server_mtime
    (snd (Write s (mkWriteRequest (p +:+ String NUL sfx) 0 data mtime) t_fs now)) p =
    server_mtime s p.
Proof.
  intros Hopen Hgate.
  set (request := mkWriteRequest (p +:+ String NUL sfx) 0 data mtime).
  assert (Hc : c_str p = c_str (wr_path request)) by (symmetry; apply c_str_app_NUL).
  assert (Hopen' : Stream.is_open
                     (fst (Write_open (storage s) (wr_path request) t_fs)) = true).
  { apply Write_open_is_open. rewrite <- (resolve_c_str _ _ _ Hc).
    by apply Write_open_is_open in Hopen. }
  rewrite Write_fresh by done. cbn [fst snd].
  split; [reflexivity|]. split.
  - destruct (Write_storage_same s request t_fs p Hc Hopen')
      as (old & mt & _ & Hres & _).
    erewrite Read_regular by (cbn [storage]; first [exact Hres | lia]).
    cbn [i_data wr_offset wr_data request].
    rewrite file_slice_content_after by done.
    by rewrite Nat2Z.id, Nat.sub_diag, app_nil_r.
  - unfold server_mtime. cbn [file_versions wr_path request].
    rewrite lookup_insert_ne; [done | apply app_NUL_neq].
Qed.

(** The record of "a.txt" is 2000: a write declared at 5 is rejected
    under that path and accepted under the path with a NUL appended,
    after which "a.txt" holds its data. *)
Lemma gate_keyed_by_whole_path_witness :
  let s := run_writes (boot ∅) two_writes in
  fst (Write s (mkWriteRequest "a.txt" 0 (bytes_of "stale") 5) 2001 2001) =
    Returned FAILED_PRECONDITION WriteResponse0 ∧
  Stream.is_open (fst (Write_open (storage s) "a.txt" 2001)) = true ∧
  server_mtime s ("a.txt" +:+ String NUL "") <= 5 ∧
  Read (snd (Write s (mkWriteRequest ("a.txt" +:+ String NUL "") 0
                        (bytes_of "stale") 5) 2001 2001))
       (mkReadRequest "a.txt" 0 5) =
    Returned OK (mkReadResponse (bytes_of "stale") 5).
Proof.
  intros s.
  assert (Hopen : Stream.is_open (fst (Write_open (storage s) "a.txt" 2001)) = true)
    by reflexivity.
  assert (Hgate : server_mtime s ("a.txt" +:+ String NUL "") <= 5)
    by (vm_compute; discriminate).
  split; [reflexivity|]. split; [exact Hopen|]. split; [exact Hgate|].
  exact (proj1 (proj2 (gate_keyed_by_whole_path s "a.txt" "" (bytes_of "stale")
                         5 2001 2001 Hopen Hgate))).
Defined.

(** * Further properties of the adaptation layer *)

Lemma int64_of_small (z : Z) : - 2 ^ 63 <= z < 2 ^ 63 -> Adapter.int64_of z = z.
Proof.
  intros Hz. unfold Adapter.int64_of. rewrite Z.mod_small by lia. lia.
Qed.

(** ** Attributes *)

(** X9.  The attribute hook reports every file the server finds as a
    regular file with mode 0666 and one link, with the size and the
    modification time of the stored file, also when the file is
    read-only at the server; where the server finds no file it returns
    [-ENOENT] with a zeroed [struct stat].  Any failure of the remote
    call gives that same result. *)
Theorem dfs_getattr_mounted (s : server) (path : string) :
  Adapter.dfs_getattr (Adapter.remote_GetAttr s) path =
    match resolve (storage s) (Fuse.path_plus_1 path) with
    | Some (Regular f) =>
        (0, Adapter.Stat 33206 1 (Z.of_nat (length (i_data f))) (i_mtime f))
    | _ => (- Adapter.ENOENT, Adapter.stat0)
    end ∧
  (∀ stub,
     fst (stub (mkGetAttrRequest (Fuse.path_plus_1 path))) ≠ OK ->
     Adapter.dfs_getattr stub path = (- Adapter.ENOENT, Adapter.stat0)).
Proof.
  split.
  - unfold Adapter.dfs_getattr, Adapter.remote_GetAttr, GetAttr, sys_stat. simpl.
    by destruct (resolve (storage s) (Fuse.path_plus_1 path)) as [[f|]|].
  - intros stub Hne. unfold Adapter.dfs_getattr.
    destruct (stub _) as [status response]. simpl in *.
    unfold ok. by rewrite bool_decide_eq_false_2.
Qed.

(** A file that is read-only at the server is shown with mode 0666; a
    transport failure looks like a missing file. *)
Lemma dfs_getattr_mounted_witness :
  Adapter.dfs_getattr (Adapter.remote_GetAttr (boot readonly_disk)) "/a.txt" =
    (0, Adapter.Stat 33206 1 5 100) ∧
  Adapter.dfs_getattr (λ _, (UNAVAILABLE, GetAttrResponse0)) "/a.txt" =
    (- Adapter.ENOENT, Adapter.stat0).
Proof.
  split.
  - exact (proj1 (dfs_getattr_mounted (boot readonly_disk) "/a.txt")).
  - apply (proj2 (dfs_getattr_mounted (boot ∅) "/a.txt")). discriminate.
Defined.

(** ** Reading through the mount *)

Lemma memcpy_prefix (dest src rest : bytes) :
  (length src <= length dest)%nat ->
  Adapter.memcpy dest (src ++ rest) (Z.of_nat (length src)) =
    Some (src ++ drop (length src) dest).
Proof.
  intros Hlen. unfold Adapter.memcpy.
  rewrite length_app, Nat2Z.id, take_app_length.
  destruct (Z.leb_spec 0 (Z.of_nat (length src))); [|lia].
  destruct (Z.leb_spec (Z.of_nat (length src)) (Z.of_nat (length dest))); [|lia].
  destruct (Z.leb_spec (Z.of_nat (length src))
              (Z.of_nat (length src + length rest))); [|lia].
  reflexivity.
Qed.

Lemma dfs_read_regular
    (s : server) (path : string) (buf : bytes) (size offset : Z) (f : inode) :
  resolve (storage s) (Fuse.path_plus_1 path) = Some (Regular f) ->
  Z.of_nat (length buf) = size ->
  size < 2 ^ 31 ->
  Adapter.dfs_read (Adapter.remote_Read s) path buf size offset =
    Some (Z.of_nat (length (file_slice (i_data f) offset size)),
          file_slice (i_data f) offset size
            ++ drop (length (file_slice (i_data f) offset size)) buf).
Proof.
  intros Hres Hbuf Hsize.
  assert (0 <= size) by lia.
  unfold Adapter.dfs_read, Adapter.remote_Read.
  rewrite int64_of_small by lia.
  rewrite (Read_regular _ _ _ _ _ Hres) by done. simpl.
  pose proof (length_file_slice (i_data f) offset size ltac:(done)) as Hk.
  set (got := file_slice (i_data f) offset size) in *.
  rewrite <- app_assoc, memcpy_prefix by lia.
  by rewrite int_of_small by lia.
Qed.

(** X10.  Reading through the mount, with a buffer of [size] bytes and
    [size] at most 2^20 (a FUSE request carries no more): when the server holds the file as a regular file
    that opens for reading, the hook returns the number of bytes found
    at the offset and places exactly those bytes at the start of the
    buffer, leaving the rest of the buffer as it was (the NUL padding of
    the reply is never copied); when the remote call fails, a missing
    file included, it returns [-EIO] and leaves the buffer untouched. *)
Theorem dfs_read_mounted
    (s : server) (path : string) (buf : bytes) (size offset : Z) :
  (∀ f,
     resolve (storage s) (Fuse.path_plus_1 path) = Some (Regular f) ->
     sys_open (storage s) (Fuse.path_plus_1 path) ios_in 0 ≠ None ->
     Z.of_nat (length buf) = size ->
     size <= 2 ^ 20 ->
     Adapter.dfs_read (Adapter.remote_Read s) path buf size offset =
       Some (Z.of_nat (length (file_slice (i_data f) offset size)),
             file_slice (i_data f) offset size
               ++ drop (length (file_slice (i_data f) offset size)) buf)) ∧
  (∀ stub,
     fst (stub (mkReadRequest (Fuse.path_plus_1 path) offset
                  (Adapter.int64_of size))) ≠ OK ->
     Adapter.dfs_read stub path buf size offset = Some (- Fuse.EIO, buf)) ∧
  (sys_stat (storage s) (Fuse.path_plus_1 path) = None ->
     Adapter.dfs_read (Adapter.remote_Read s) path buf size offset =
       Some (- Fuse.EIO, buf)).
Proof.
  assert (Hfail : ∀ stub,
     fst (stub (mkReadRequest (Fuse.path_plus_1 path) offset
                  (Adapter.int64_of size))) ≠ OK ->
     Adapter.dfs_read stub path buf size offset = Some (- Fuse.EIO, buf)).
  { intros stub Hne. unfold Adapter.dfs_read.
    destruct (stub _) as [status response]. simpl in *.
    unfold ok. by rewrite bool_decide_eq_false_2. }
  split; [|split; [exact Hfail|]].
  - intros f Hres _ Hbuf Hsize. apply dfs_read_regular; [done | done | lia].
  - intros Hstat. apply Hfail. unfold Adapter.remote_Read.
    by rewrite Read_not_found.
Qed.

Lemma dfs_read_mounted_witness :
  let buf := bytes_of "XXXXXXXXXX" in
  resolve (storage (boot hello_disk)) (Fuse.path_plus_1 "/a.txt") =
    Some (Regular (Inode (bytes_of "hello") 100 true)) ∧
  sys_open (storage (boot hello_disk)) (Fuse.path_plus_1 "/a.txt") ios_in 0 ≠ None ∧
  Z.of_nat (length buf) = 10 ∧
  Adapter.dfs_read (Adapter.remote_Read (boot hello_disk)) "/a.txt" buf 10 3 =
    Some (2, bytes_of "loXXXXXXXX").
Proof.
  intros buf.
  assert (Hres : resolve (storage (boot hello_disk)) (Fuse.path_plus_1 "/a.txt") =
                 Some (Regular (Inode (bytes_of "hello") 100 true)))
    by reflexivity.
  assert (Hopen : sys_open (storage (boot hello_disk)) (Fuse.path_plus_1 "/a.txt")
                    ios_in 0 ≠ None) by (vm_compute; discriminate).
  assert (Hbuf : Z.of_nat (length buf) = 10) by reflexivity.
  split; [exact Hres|]. split; [exact Hopen|]. split; [exact Hbuf|].
  exact (proj1 (dfs_read_mounted (boot hello_disk) "/a.txt" buf 10 3) _
           Hres Hopen Hbuf ltac:(lia)).
Defined.

(** ** Creating and removing through the mount *)

Lemma Write_empty_storage (s : server) (path : string) (offset mtime t_fs : Z) :
  Write_storage s (mkWriteRequest path offset [] mtime) t_fs =
    match resolve (storage s) path with
    | None => <[c_str path := Regular (Inode [] t_fs true)]> (storage s)
    | _ => storage s
    end.
Proof.
  rewrite Write_storage_spec. simpl.
  destruct (resolve (storage s) path) as [[f|]|]; [|done..].
  by rewrite andb_false_r.
Qed.

(** X11.  The create hook is a Write of no bytes stamped with the
    client's time.  It returns 0 when that time is not below the
    timestamp recorded for the name and [-EIO] otherwise.  When it
    returns 0 the server records its own clock reading for the name; a
    file that opens for reading and writing keeps its contents, size and
    modification time (nothing is truncated), and under a free name an
    empty file appears. *)
Theorem dfs_create_mounted
    (s : server) (path : string) (time_nullptr t_fs now : Z) :
  (Adapter.dfs_create (Fuse.remote_Write s t_fs now) time_nullptr path =
     if time_nullptr <? server_mtime s (Fuse.path_plus_1 path)
     then - Fuse.EIO else 0) ∧
  (Adapter.dfs_create (Fuse.remote_Write s t_fs now) time_nullptr path = 0 ->
     file_versions
       (snd (Write s (mkWriteRequest (Fuse.path_plus_1 path) 0 [] time_nullptr)
               t_fs now)) !! Fuse.path_plus_1 path = Some now ∧
     (sys_open (storage s) (Fuse.path_plus_1 path) ios_in_out t_fs ≠ None ->
        storage (snd (Write s (mkWriteRequest (Fuse.path_plus_1 path) 0 []
                                 time_nullptr) t_fs now)) = storage s) ∧
     (resolve (storage s) (Fuse.path_plus_1 path) = None ->
        GetAttr (snd (Write s (mkWriteRequest (Fuse.path_plus_1 path) 0 []
                                 time_nullptr) t_fs now))
                (mkGetAttrRequest (Fuse.path_plus_1 path)) =
          Returned OK (mkGetAttrResponse true 0 t_fs))).
Proof.
  set (name := Fuse.path_plus_1 path).
  set (request := mkWriteRequest name 0 [] time_nullptr).
  assert (Hres : Adapter.dfs_create (Fuse.remote_Write s t_fs now) time_nullptr path =
                 if time_nullptr <? server_mtime s name then - Fuse.EIO else 0).
  { unfold Adapter.dfs_create, Fuse.remote_Write. fold name. fold request.
    destruct (Z.ltb_spec time_nullptr (server_mtime s name)).
    - by rewrite Write_stale.
    - by rewrite Write_fresh. }
  split; [exact Hres|].
  rewrite Hres. destruct (Z.ltb_spec time_nullptr (server_mtime s name));
    [discriminate|]. intros _.
  rewrite Write_fresh by done. cbn [snd file_versions storage].
  subst request. cbn [wr_path]. rewrite Write_empty_storage.
  split; [apply lookup_insert_eq|]. split.
  - intros Hopen. apply sys_open_in_out in Hopen as (f & Hf & _). by rewrite Hf.
  - intros Hfree. rewrite Hfree. unfold GetAttr, sys_stat. cbn [ga_path storage].
    apply resolve_None in Hfree as [Hne _].
    by rewrite resolve_insert_same.
Qed.

Lemma dfs_create_mounted_witness :
  Adapter.dfs_create (Fuse.remote_Write (boot hello_disk) 1000 1000) 100 "/a.txt" = 0 ∧
  sys_open (storage (boot hello_disk)) "a.txt" ios_in_out 1000 ≠ None ∧
  storage (snd (Write (boot hello_disk) (mkWriteRequest "a.txt" 0 [] 100) 1000 1000)) =
    hello_disk ∧
  Adapter.dfs_create (Fuse.remote_Write (boot hello_disk) 1000 1000) 100 "/b.txt" = 0 ∧
  GetAttr (snd (Write (boot hello_disk) (mkWriteRequest "b.txt" 0 [] 100) 1000 1000))
          (mkGetAttrRequest "b.txt") =
    Returned OK (mkGetAttrResponse true 0 1000).
Proof.
  assert (Ha : Adapter.dfs_create (Fuse.remote_Write (boot hello_disk) 1000 1000)
                 100 "/a.txt" = 0) by reflexivity.
  assert (Hb : Adapter.dfs_create (Fuse.remote_Write (boot hello_disk) 1000 1000)
                 100 "/b.txt" = 0) by reflexivity.
  assert (Hopen : sys_open (storage (boot hello_disk)) "a.txt" ios_in_out 1000 ≠ None)
    by (vm_compute; discriminate).
  split; [exact Ha|]. split; [exact Hopen|]. split.
  - destruct (proj2 (dfs_create_mounted (boot hello_disk) "/a.txt" 100 1000 1000) Ha)
      as (_ & Hkeep & _).
    exact (Hkeep Hopen).
  - split; [exact Hb|].
    destruct (proj2 (dfs_create_mounted (boot hello_disk) "/b.txt" 100 1000 1000) Hb)
      as (_ & _ & Hnew).
    apply Hnew. reflexivity.
Defined.

(** X12.  The unlink hook returns [-ENOENT] whenever the remote call
    fails, a transport failure included, or comes back without
    [success].  Against the server: a path for which the attribute hook
    returns [-ENOENT] gets [-ENOENT] from the unlink hook as well; and
    once the unlink hook has returned 0, the attribute hook returns
    [-ENOENT] and the read hook [-EIO] for that path. *)
Theorem dfs_unlink_mounted (s : server) (path : string) :
  (∀ stub,
     fst (stub (mkUnlinkRequest (Fuse.path_plus_1 path))) ≠ OK ∨
     ul_success (snd (stub (mkUnlinkRequest (Fuse.path_plus_1 path)))) = false ->
     Adapter.dfs_unlink stub path = - Adapter.ENOENT) ∧
  (fst (Adapter.dfs_getattr (Adapter.remote_GetAttr s) path) = - Adapter.ENOENT ->
     Adapter.dfs_unlink (Adapter.remote_Unlink s) path = - Adapter.ENOENT) ∧
  (Adapter.dfs_unlink (Adapter.remote_Unlink s) path = 0 ->
     Adapter.dfs_getattr
       (Adapter.remote_GetAttr
          (snd (Unlink s (mkUnlinkRequest (Fuse.path_plus_1 path))))) path =
       (- Adapter.ENOENT, Adapter.stat0) ∧
     ∀ buf size offset,
       Adapter.dfs_read
         (Adapter.remote_Read
            (snd (Unlink s (mkUnlinkRequest (Fuse.path_plus_1 path)))))
         path buf size offset = Some (- Fuse.EIO, buf)).
Proof.
  split; [|split].
  - intros stub Hfail. unfold Adapter.dfs_unlink.
    destruct (stub _) as [status response]. simpl in *. unfold ok.
    destruct Hfail as [Hne | Hno].
    + by rewrite bool_decide_eq_false_2.
    + by rewrite Hno, andb_false_r.
  - unfold Adapter.dfs_getattr, Adapter.remote_GetAttr, GetAttr,
      Adapter.dfs_unlink, Adapter.remote_Unlink, Unlink. simpl.
    rewrite sys_remove_spec.
    by destruct (sys_stat (storage s) (Fuse.path_plus_1 path)) as [[??]|].
  - intros _.
    pose proof (Unlink_storage_gone s (mkUnlinkRequest (Fuse.path_plus_1 path)))
      as Hgone. simpl in Hgone. split.
    + unfold Adapter.dfs_getattr, Adapter.remote_GetAttr, GetAttr. simpl.
      by rewrite Hgone.
    + intros buf size offset. unfold Adapter.dfs_read, Adapter.remote_Read.
      by rewrite Read_not_found.
Qed.

Lemma dfs_unlink_mounted_witness :
  Adapter.dfs_unlink (Adapter.remote_Unlink (boot hello_disk)) "/a.txt" = 0 ∧
  Adapter.dfs_getattr
    (Adapter.remote_GetAttr (snd (Unlink (boot hello_disk) (mkUnlinkRequest "a.txt"))))
    "/a.txt" = (- Adapter.ENOENT, Adapter.stat0) ∧
  Adapter.dfs_unlink (Adapter.remote_Unlink (boot hello_disk)) "/b.txt" =
    - Adapter.ENOENT ∧
  Adapter.dfs_unlink (λ _, (UNAVAILABLE, UnlinkResponse0)) "/a.txt" =
    - Adapter.ENOENT.
Proof.
  assert (H0 : Adapter.dfs_unlink (Adapter.remote_Unlink (boot hello_disk)) "/a.txt" = 0)
    by reflexivity.
  destruct (dfs_unlink_mounted (boot hello_disk) "/a.txt") as (_ & _ & Hafter).
  destruct (dfs_unlink_mounted (boot hello_disk) "/b.txt") as (_ & Hmissing & _).
  destruct (dfs_unlink_mounted (boot ∅) "/a.txt") as (Hstub & _ & _).
  split; [exact H0|]. split; [exact (proj1 (Hafter H0))|]. split.
  - apply Hmissing. reflexivity.
  - apply (Hstub (λ _, (UNAVAILABLE, UnlinkResponse0))). left. discriminate.
Defined.

(** ** Round trip through the mount *)

(** X13.  Writing [size] bytes through the mount and reading [size]
    bytes back at the same offset returns them: when the client's time
    passes the gate, the file opens at the server, the offset is not
    negative, [size] is at most 2^20 (a FUSE request carries no more)
    and the written range ends below 2^31, the write hook returns
    [size] and the read hook then returns [size] with the buffer
    holding exactly the bytes written. *)
Theorem mount_write_read_roundtrip
    (s : server) (path : string) (data rbuf : bytes) (size offset : Z)
    (time_nullptr t_fs now : Z) :
  server_mtime s (Fuse.path_plus_1 path) <= time_nullptr ->
  Stream.is_open (fst (Write_open (storage s) (Fuse.path_plus_1 path) t_fs)) = true ->
  0 <= offset ->
  Z.of_nat (length data) = size ->
  Z.of_nat (length rbuf) = size ->
  size <= 2 ^ 20 ->
  offset + size <= 2 ^ 31 - 1 ->
  Fuse.dfs_write (Fuse.remote_Write s t_fs now) time_nullptr path data size offset
    = size ∧
  Adapter.dfs_read
    (Adapter.remote_Read
       (snd (Write s (mkWriteRequest (Fuse.path_plus_1 path) offset data time_nullptr)
               t_fs now)))
    path rbuf size offset = Some (size, data).
Proof.
  intros Hgate Hopen Hoff Hdata Hrbuf _ Hend.
  assert (Hsize : size < 2 ^ 31) by lia.
  set (request := mkWriteRequest (Fuse.path_plus_1 path) offset data time_nullptr).
  assert (Htake : take (Z.to_nat size) data = data)
    by (apply take_ge; lia).
  split.
  - unfold Fuse.dfs_write, Fuse.remote_Write. rewrite Htake. fold request.
    rewrite Write_fresh by done. simpl. rewrite int_of_small by lia. done.
  - rewrite Write_fresh by done. cbn [snd].
    destruct (Write_storage_same s request t_fs (wr_path request) eq_refl Hopen)
      as (old & mt & _ & Hres & _).
    rewrite (dfs_read_regular (Server _ (Write_storage s request t_fs)) path rbuf
               size offset _ Hres Hrbuf Hsize).
    cbn [i_data request wr_offset wr_data]. rewrite <- Hdata.
    rewrite file_slice_content_after by done.
    rewrite drop_ge by lia. by rewrite app_nil_r.
Qed.

Lemma mount_write_read_roundtrip_witness :
  Fuse.dfs_write (Fuse.remote_Write (boot hello_disk) 1000 1000) 100 "/a.txt"
    (bytes_of "ipp") 3 1 = 3 ∧
  Adapter.dfs_read
    (Adapter.remote_Read
       (snd (Write (boot hello_disk) (mkWriteRequest "a.txt" 1 (bytes_of "ipp") 100)
               1000 1000)))
    "/a.txt" (bytes_of "XXX") 3 1 = Some (3, bytes_of "ipp").
Proof.
  apply (mount_write_read_roundtrip (boot hello_disk) "/a.txt" (bytes_of "ipp")
           (bytes_of "XXX") 3 1 100 1000 1000).
  - vm_compute. discriminate.
  - reflexivity.
  - lia.
  - reflexivity.
  - reflexivity.
  - lia.
  - lia.
Defined.

(** ** Writes at a negative offset *)

Lemma touches_negative (offset : Z) (data : bytes) :
  offset < 0 -> touches offset data = false.
Proof.
  intros H. unfold touches. destruct data; [done|].
  by destruct (Z.leb_spec 0 offset); [lia|].
Qed.

(** X14.  A Write at a negative offset that passes the gate is answered
    with OK and [bytes_written] equal to the length of the data, and
    stores none of it: a file that opens for reading and writing is left
    as it was, and under a free name an empty file is created, from
    which a Read returns no byte. *)
Theorem Write_negative_offset
    (s : server) (request : WriteRequest) (t_fs now : Z) :
  wr_offset request < 0 ->
  gate_passes s request ->
  fst (Write s request t_fs now) =
    Returned OK (mkWriteResponse (Z.of_nat (length (wr_data request)))) ∧
  (sys_open (storage s) (wr_path request) ios_in_out t_fs ≠ None ->
     storage (snd (Write s request t_fs now)) = storage s) ∧
  (resolve (storage s) (wr_path request) = None ->
     GetAttr (snd (Write s request t_fs now)) (mkGetAttrRequest (wr_path request)) =
       Returned OK (mkGetAttrResponse true 0 t_fs) ∧
     Read (snd (Write s request t_fs now))
          (mkReadRequest (wr_path request) 0 (Z.of_nat (length (wr_data request)))) =
       Returned OK
         (mkReadResponse (replicate (length (wr_data request)) x00) 0)).
Proof.
  unfold gate_passes. intros Hneg Hgate.
  rewrite Write_fresh by done. cbn [fst snd storage].
  split; [reflexivity|].
  rewrite Write_storage_spec, touches_negative, content_after_untouched
    by first [exact Hneg | by apply touches_negative].
  split.
  - intros Hopen. apply sys_open_in_out in Hopen as (f & Hf & _).
    rewrite Hf. by rewrite andb_false_r.
  - intros Hfree. rewrite Hfree.
    apply resolve_None in Hfree as [Hne _].
    assert (Hres : resolve
                     (storage
                        (Server (<[wr_path request := now]> (file_versions s))
                           (<[c_str (wr_path request) := Regular (Inode [] t_fs true)]>
                              (storage s))))
                     (wr_path request) = Some (Regular (Inode [] t_fs true)))
      by (by apply resolve_insert_same).
    split.
    + unfold GetAttr, sys_stat. cbn [ga_path]. by rewrite Hres.
    + rewrite (Read_regular _ _ _ _ _ Hres) by lia. cbn [i_data].
      unfold file_slice. simpl. by rewrite take_nil, Nat2Z.id, Nat.sub_0_r.
Qed.

Lemma Write_negative_offset_witness :
  let s := boot hello_disk in
  let request := mkWriteRequest "b.txt" (-1) (bytes_of "lost") 100 in
  wr_offset request < 0 ∧
  gate_passes s request ∧
  fst (Write s request 1000 1000) = Returned OK (mkWriteResponse 4) ∧
  GetAttr (snd (Write s request 1000 1000)) (mkGetAttrRequest "b.txt") =
    Returned OK (mkGetAttrResponse true 0 1000).
Proof.
  intros s request.
  assert (Hneg : wr_offset request < 0) by (vm_compute; reflexivity).
  assert (Hgate : gate_passes s request) by (vm_compute; discriminate).
  split; [exact Hneg|]. split; [exact Hgate|].
  destruct (Write_negative_offset s request 1000 1000 Hneg Hgate)
    as (Hfst & _ & Hnew).
  split; [exact Hfst|]. exact (proj1 (Hnew eq_refl)).
Defined.
